(** * TeachPy: session persistence and lifecycle (src/app.py)

    A shallow embedding of the session functions of [src/app.py] and of the
    part of the Python runtime they lean on: [str] against [bytes] replies
    of the redis client, the [datetime] calendar, and exceptions that leave
    the store as it was when they were raised. *)

From Stdlib Require Import ZArith Lia Bool List Ascii String Sorted.
From stdpp Require Import gmap strings list fin_maps.

Local Open Scope string_scope.
Local Open Scope Z_scope.

(** ** Python values and exceptions *)

(** The exceptions the modelled code can raise. *)
Inductive exn : Type :=
| AttributeError
| ValueError
| OverflowError.

Inductive result (A : Type) : Type :=
| Ok (a : A)
| Raise (e : exn).
Arguments Ok {A} a.
Arguments Raise {A} e.

(** What a redis call hands back to Python: [None] for a missing key, a
    [str] when the client decodes its replies, [bytes] when it does not.
    A character of the Rocq string stands for one character (or one byte)
    of the Python object. *)
Inductive pyval : Type :=
| PyNone
| PyStr (s : string)
| PyBytes (b : string).

(** Python truth value: [None], [''] and [b''] are false. *)
Definition truthy (v : pyval) : bool :=
  match v with
  | PyNone => false
  | PyStr s | PyBytes s => negb (String.eqb s "")
  end.

(** [v.decode('utf-8')]: only [bytes] has the method; on [str] and on
    [None] the attribute lookup raises [AttributeError]. *)
Definition decode (v : pyval) : result string :=
  match v with
  | PyBytes b => Ok b
  | PyStr _ | PyNone => Raise AttributeError
  end.

(** ** The calendar of [datetime] *)

Module Calendar.

Record date : Type := mkdate { year : Z; month : Z; day : Z }.

Record datetime : Type :=
  mkdatetime { date_of : date; hour : Z; minute : Z }.

Definition is_leap (y : Z) : bool :=
  (y mod 4 =? 0) && (negb (y mod 100 =? 0) || (y mod 400 =? 0)).

Definition days_in_month (y m : Z) : Z :=
  if m =? 2 then (if is_leap y then 29 else 28)
  else if (m =? 4) || (m =? 6) || (m =? 9) || (m =? 11) then 30
  else 31.

(** Number of days in the year before the first day of month [m]. *)
Definition days_before_month (y m : Z) : Z :=
  match m with
  | 1 => 0 | 2 => 31 | 3 => 59 | 4 => 90 | 5 => 120 | 6 => 151
  | 7 => 181 | 8 => 212 | 9 => 243 | 10 => 273 | 11 => 304 | _ => 334
  end + (if (2 <? m) && is_leap y then 1 else 0).

(** Number of days before January 1st of year [y]. *)
Definition days_before_year (y : Z) : Z :=
  let p := y - 1 in p * 365 + p / 4 - p / 100 + p / 400.

(** [date.toordinal()]: 0001-01-01 is day 1. *)
Definition toordinal (d : date) : Z :=
  days_before_year (year d) + days_before_month (year d) (month d) + day d.

(** [date.weekday()]: Monday is 0. *)
Definition weekday (d : date) : Z := (toordinal d + 6) mod 7.

(** The values a [date] object can hold: MINYEAR = 1, MAXYEAR = 9999. *)
Definition valid_date (d : date) : bool :=
  (1 <=? year d) && (year d <=? 9999) &&
  (1 <=? month d) && (month d <=? 12) &&
  (1 <=? day d) && (day d <=? days_in_month (year d) (month d)).

Definition valid_datetime (t : datetime) : bool :=
  valid_date (date_of t) &&
  (0 <=? hour t) && (hour t <=? 23) &&
  (0 <=? minute t) && (minute t <=? 59).

(** [date.min] *)
Definition date_min : date := mkdate 1 1 1.

(** [d1 == d2] on dates. *)
Definition date_eqb (a b : date) : bool :=
  (year a =? year b) && (month a =? month b) && (day a =? day b).

(** [d - timedelta(days=1)]: the calendar day before [d]; there is none
    before [date.min], where Python raises [OverflowError]. *)
Definition minus_one_day (d : date) : result date :=
  if 1 <? day d then Ok (mkdate (year d) (month d) (day d - 1))
  else if 1 <? month d then
    Ok (mkdate (year d) (month d - 1) (days_in_month (year d) (month d - 1)))
  else if 1 <? year d then Ok (mkdate (year d - 1) 12 31)
  else Raise OverflowError.

(** [strftime("%A")] *)
Definition day_name (d : date) : string :=
  match weekday d with
  | 0 => "Monday" | 1 => "Tuesday" | 2 => "Wednesday" | 3 => "Thursday"
  | 4 => "Friday" | 5 => "Saturday" | _ => "Sunday"
  end.

(** *** The storage format ["%Y-%m-%d %H:%M"] *)

Definition digit (n : Z) : ascii := ascii_of_nat (48 + Z.to_nat n).

Definition digit_val (c : ascii) : option Z :=
  let n := Z.of_nat (nat_of_ascii c) in
  if (48 <=? n) && (n <=? 57) then Some (n - 48) else None.

Definition two_digits (n : Z) (rest : string) : string :=
  String (digit (n / 10)) (String (digit (n mod 10)) rest).

Definition four_digits (n : Z) (rest : string) : string :=
  String (digit (n / 1000)) (String (digit (n / 100 mod 10))
    (String (digit (n / 10 mod 10)) (String (digit (n mod 10)) rest))).

(** [t.strftime("%Y-%m-%d %H:%M")]: every field zero-padded to its width,
    the year to four digits as Python documents [%Y]. *)
Definition strftime (t : datetime) : string :=
  four_digits (year (date_of t)) (String "-"
    (two_digits (month (date_of t)) (String "-"
      (two_digits (day (date_of t)) (String " "
        (two_digits (hour t) (String ":"
          (two_digits (minute t) "")))))))).

Definition number2 (a b : ascii) : option Z :=
  match digit_val a, digit_val b with
  | Some x, Some y => Some (10 * x + y)
  | _, _ => None
  end.

Definition number4 (a b c d : ascii) : option Z :=
  match number2 a b, number2 c d with
  | Some x, Some y => Some (100 * x + y)
  | _, _ => None
  end.

(** [datetime.strptime(s, "%Y-%m-%d %H:%M")] on the fixed-width strings
    that [strftime] writes (sixteen characters, fields zero-padded);
    [None] stands for the [ValueError] of a string that does not parse or
    names no calendar day. *)
Definition strptime (s : string) : option datetime :=
  match s with
  | String y1 (String y2 (String y3 (String y4 (String "-"
    (String m1 (String m2 (String "-"
    (String d1 (String d2 (String " "
    (String h1 (String h2 (String ":"
    (String n1 (String n2 EmptyString))))))))))))))) =>
      match number4 y1 y2 y3 y4, number2 m1 m2, number2 d1 d2,
            number2 h1 h2, number2 n1 n2 with
      | Some y, Some m, Some d, Some h, Some n =>
          let t := mkdatetime (mkdate y m d) h n in
          if valid_datetime t then Some t else None
      | _, _, _, _, _ => None
      end
  | _ => None
  end.

End Calendar.
Import Calendar.

(** ** Computations that can raise *)

#[global] Instance result_ret : MRet result := fun _ a => Ok a.
#[global] Instance result_bind : MBind result := fun _ _ k r =>
  match r with
  | Ok a => k a
  | Raise e => Raise e
  end.

(** ** The redis server and the client of the program *)

(** A chat message, [{"role": ..., "content": ...}]. *)
Record message : Type := mkmessage { role : string; content : string }.

(** A session record, the dict that [json.dumps] writes and [json.loads]
    reads back. *)
Record session : Type := mksession {
  id : string;
  title : string;
  messages : list message;
  created_at : string;
  display_time : string
}.

(** The two keys of the program on the server: the hash at
    [CHAT_SESSIONS_KEY], from session id to the JSON text of the record
    (kept here as the record it encodes), and the string at
    [CURRENT_SESSION_KEY], which may be missing. *)
Record server : Type := mkserver {
  chat_sessions : gmap string session;
  current_session : option string
}.

(** [redis.from_url(url, decode_responses=...)] *)
Record client : Type := from_url { decode_responses : bool }.

(** Line 20: [redis.from_url(redis_url, decode_responses=True)]. *)
Definition redis_client : client := from_url true.

(** A command reads or writes the server and returns or raises; what it
    wrote before raising stays written. *)
Definition M (A : Type) : Type := server -> result A * server.

#[global] Instance M_ret : MRet M := fun _ a srv => (Ok a, srv).
#[global] Instance M_bind : MBind M := fun _ _ k c srv =>
  match c srv with
  | (Ok a, srv') => k a srv'
  | (Raise e, srv') => (Raise e, srv')
  end.

Definition lift {A : Type} (r : result A) : M A := fun srv => (r, srv).

Module Redis.

(** How the client presents a string of the server to Python. *)
Definition reply (rc : client) (s : string) : pyval :=
  if decode_responses rc then PyStr s else PyBytes s.

(** [rc.hset(CHAT_SESSIONS_KEY, field, json.dumps(value))] *)
Definition hset (rc : client) (field : string) (value : session) : M unit :=
  fun srv =>
    (Ok tt, mkserver (<[field := value]> (chat_sessions srv))
                     (current_session srv)).

(** [rc.hget(CHAT_SESSIONS_KEY, field)]: [None] for a missing field, else
    the JSON text, which is never empty and so always true; [json.loads]
    reads [str] and [bytes] alike. *)
Definition hget (rc : client) (field : string) : M (option session) :=
  fun srv => (Ok (chat_sessions srv !! field), srv).

(** [rc.hgetall(CHAT_SESSIONS_KEY).items()]: the fields come back as the
    client presents strings. *)
Definition hgetall (rc : client) : M (list (pyval * session)) :=
  fun srv =>
    (Ok (List.map (fun kv => (reply rc kv.1, kv.2))
                  (map_to_list (chat_sessions srv))), srv).

(** [rc.hdel(CHAT_SESSIONS_KEY, field)] *)
Definition hdel (rc : client) (field : string) : M unit :=
  fun srv =>
    (Ok tt, mkserver (base.delete field (chat_sessions srv))
                     (current_session srv)).

(** [rc.get(CURRENT_SESSION_KEY)] *)
Definition get (rc : client) : M pyval :=
  fun srv =>
    (Ok match current_session srv with
        | Some s => reply rc s
        | None => PyNone
        end, srv).

(** [rc.set(CURRENT_SESSION_KEY, value)] *)
Definition set (rc : client) (value : string) : M unit :=
  fun srv => (Ok tt, mkserver (chat_sessions srv) (Some value)).

(** [rc.delete(CURRENT_SESSION_KEY)] *)
Definition delete (rc : client) : M unit :=
  fun srv => (Ok tt, mkserver (chat_sessions srv) None).

End Redis.

(** ** Chat session management *)

(** Lines 82-99. [now] is what [datetime.now()] reads on line 86. *)
Definition format_chat_timestamp (timestamp_str : string) (now : datetime)
  : result string :=
  timestamp ← match strptime timestamp_str with
              | Some t => Ok t
              | None => Raise ValueError
              end;
  let today := date_of now in
  yesterday ← minus_one_day today;
  let timestamp_date := date_of timestamp in
  if date_eqb timestamp_date today then Ok "Today"
  else if date_eqb timestamp_date yesterday then Ok "Yesterday"
  else Ok (day_name timestamp_date).

(** Lines 143-152. *)
Definition add_message_to_session (rc : client) (session_id : string)
    (message : message) : M unit :=
  session_data ← Redis.hget rc session_id;
  match session_data with
  | Some session =>
      let msgs := (messages session ++ [message])%list in
      let title' :=
        if String.eqb (role message) "user" && (length msgs =? 2)%nat
        then substring 0 30 (content message) +:+ "..."
        else title session in
      Redis.hset rc session_id
        (mksession (id session) title' msgs
                   (created_at session) (display_time session))
  | None => mret tt
  end.

Definition greeting : string :=
  "Hello! I am TeachPy. To get started, could you please tell me which version of Python you'd like to learn (Python 2 or Python 3) and what you would consider your current skill level: *Beginner*, *Intermediate*, or *Advanced*?".

(** Lines 121-124. *)
Definition initial_message : message := mkmessage "assistant" greeting.

(** Lines 101-127. [uuid4] is the string of [uuid.uuid4()], [now] the
    clock read on line 105 and [now'] the clock read again inside
    [format_chat_timestamp]. *)
Definition create_new_session (rc : client) (uuid4 : string)
    (now now' : datetime) : M string :=
  let session_id := uuid4 in
  let timestamp := strftime now in
  display_time ← lift (format_chat_timestamp timestamp now');
  let session_data :=
    mksession session_id ("New Session (" +:+ display_time +:+ ")") []
              timestamp display_time in
  Redis.hset rc session_id session_data;;
  Redis.set rc session_id;;
  add_message_to_session rc session_id initial_message;;
  mret session_id.

(** Lines 129-134. The last three arguments feed [create_new_session]
    when it is called. *)
Definition get_current_session (rc : client) (uuid4 : string)
    (now now' : datetime) : M string :=
  session_id ← Redis.get rc;
  if negb (truthy session_id) then create_new_session rc uuid4 now now'
  else lift (decode session_id).

(** Lines 136-141. *)
Definition get_session_messages (rc : client) (session_id : string)
  : M (list message) :=
  session_data ← Redis.hget rc session_id;
  match session_data with
  | Some session => mret (messages session)
  | None => mret []
  end.

(** An entry of the list that [get_all_sessions] returns. *)
Record summary : Type := mksummary {
  sum_id : string;
  sum_title : string;
  sum_created_at : string;
  message_count : nat
}.

(** [sorted(l, key=lambda x: x["created_at"], reverse=True)]: stable, an
    entry goes in front of the first one whose key is not above its own. *)
Fixpoint insert_desc (x : summary) (l : list summary) : list summary :=
  match l with
  | [] => [x]
  | y :: l' =>
      if String.ltb (sum_created_at x) (sum_created_at y)
      then y :: insert_desc x l'
      else x :: l
  end.

Definition sorted_desc (l : list summary) : list summary :=
  foldr insert_desc [] l.

(** The loop of lines 157-164: the first [decode] that raises ends it. *)
Fixpoint collect_sessions (items : list (pyval * session))
  : result (list summary) :=
  match items with
  | [] => Ok []
  | (session_id, session) :: rest =>
      sid ← decode session_id;
      let entry := mksummary sid (title session) (created_at session)
                             (length (messages session)) in
      sessions ← collect_sessions rest;
      Ok (entry :: sessions)
  end.

(** Lines 154-166. *)
Definition get_all_sessions (rc : client) : M (list summary) :=
  items ← Redis.hgetall rc;
  sessions ← lift (collect_sessions items);
  mret (sorted_desc sessions).

(** Lines 168-173. *)
Definition delete_session (rc : client) (session_id : string) : M unit :=
  Redis.hdel rc session_id;;
  current_session ← Redis.get rc;
  is_current ←
    (if truthy current_session
     then s ← lift (decode current_session); mret (String.eqb s session_id)
     else mret false);
  if is_current : bool then Redis.delete rc else mret tt.

(** Lines 279-285 of [main], the handler of a failed send: drop the last
    message when it is a user message. *)
Definition handle_failed_send (rc : client) (current_session_id : string)
  : M unit :=
  session_data ← Redis.hget rc current_session_id;
  match session_data with
  | Some session =>
      match last (messages session) with
      | Some m =>
          if String.eqb (role m) "user"
          then Redis.hset rc current_session_id
                 (mksession (id session) (title session)
                            (removelast (messages session))
                            (created_at session) (display_time session))
          else mret tt
      | None => mret tt
      end
  | None => mret tt
  end.

(** ** Histories of one session *)

(** What a caller does to a session once it exists: append a message, or
    roll back after a failed send. *)
Inductive op : Type :=
| Append (m : message)
| FailedSend.

Definition run_op (rc : client) (session_id : string) (o : op) : M unit :=
  match o with
  | Append m => add_message_to_session rc session_id m
  | FailedSend => handle_failed_send rc session_id
  end.

(** The server after a sequence of operations on one session. *)
Fixpoint run_ops (rc : client) (session_id : string) (ops : list op)
    (srv : server) : server :=
  match ops with
  | [] => srv
  | o :: rest => run_ops rc session_id rest (run_op rc session_id o srv).2
  end.

Definition title_of (session_id : string) (srv : server) : option string :=
  title <$> chat_sessions srv !! session_id.

Definition count_of (session_id : string) (srv : server) : option nat :=
  (fun s => length (messages s)) <$> chat_sessions srv !! session_id.

(** Number of operations of the sequence across which the stored title
    differs before and after. *)
Fixpoint title_changes (rc : client) (session_id : string) (ops : list op)
    (srv : server) : nat :=
  match ops with
  | [] => 0
  | o :: rest =>
      let srv' := (run_op rc session_id o srv).2 in
      ((if bool_decide (title_of session_id srv = title_of session_id srv')
        then 0 else 1)
       + title_changes rc session_id rest srv')%nat
  end.

Definition is_failed_send (o : op) : bool :=
  match o with
  | FailedSend => true
  | Append _ => false
  end.

Definition failed_sends (ops : list op) : nat :=
  length (List.filter is_failed_send ops).

(** The pointer, when present, names a stored session. *)
Definition pointer_ok (srv : server) : Prop :=
  forall sid, current_session srv = Some sid ->
              is_Some (chat_sessions srv !! sid).

(** ** Orders on timestamps *)

(** Lexicographic combination of two comparisons. *)
Definition lex (c r : comparison) : comparison :=
  match c with
  | Eq => r
  | _ => c
  end.

(** Minutes from the start of 0001-01-01 to the datetime: the time line. *)
Definition minutes_of (t : datetime) : Z :=
  (toordinal (date_of t) * 24 + hour t) * 60 + minute t.

(** The entry that the loop of [get_all_sessions] builds for a record. *)
Definition summary_of (kv : string * session) : summary :=
  mksummary kv.1 (title kv.2) (created_at kv.2) (length (messages kv.2)).

(** [a] may stand right before [b] in a list sorted newest first: the key
    of [a] is not below the key of [b]. *)
Definition not_older (a b : summary) : Prop :=
  String.ltb (sum_created_at a) (sum_created_at b) = false.

(** ** A chat turn *)

(** Lines 253-285 of [main]: what the chat area does to the store with
    what the input box hands over, [None] when nothing was submitted.
    [response] is what [send_message(user_prompt).text] gives: a text, or
    an exception, every one of which the [except] clause catches. The
    Streamlit calls that draw the messages are taken not to raise. *)
Definition submit_message (rc : client) (current_session_id : string)
    (user_prompt : option string) (response : result string) : M unit :=
  match user_prompt with
  | Some prompt =>
      if String.eqb prompt "" then mret tt
      else
        add_message_to_session rc current_session_id
          (mkmessage "user" prompt);;
        match response with
        | Ok response_text =>
            add_message_to_session rc current_session_id
              (mkmessage "assistant" response_text)
        | Raise _ => handle_failed_send rc current_session_id
        end
  | None => mret tt
  end.

(** One run of the chat area: the prompt and the outcome of the send. *)
Definition turn : Type := option string * result string.

(** The server after a sequence of turns on one session. *)
Fixpoint run_turns (rc : client) (session_id : string) (turns : list turn)
    (srv : server) : server :=
  match turns with
  | [] => srv
  | t :: rest =>
      run_turns rc session_id rest
        (submit_message rc session_id t.1 t.2 srv).2
  end.

(** The two messages of an answered prompt; nothing for a turn without a
    prompt or without an answer. *)
Definition exchange (t : turn) : list message :=
  match t with
  | (Some prompt, Ok response_text) =>
      if String.eqb prompt "" then []
      else [mkmessage "user" prompt; mkmessage "assistant" response_text]
  | _ => []
  end.

Definition transcript (turns : list turn) : list message :=
  flat_map exchange turns.

(** The title of a session that holds one message, after the turns: that
    of the first answered prompt, and until one is answered that of the
    latest prompt. *)
Fixpoint title_after (turns : list turn) (current : string) : string :=
  match turns with
  | [] => current
  | (Some prompt, response) :: rest =>
      if String.eqb prompt "" then title_after rest current
      else
        match response with
        | Ok _ => substring 0 30 prompt +:+ "..."
        | Raise _ => title_after rest (substring 0 30 prompt +:+ "...")
        end
  | (None, _) :: rest => title_after rest current
  end.

(** The entries of a list with the key [k]. *)
Definition with_key (k : string) (l : list summary) : list summary :=
  List.filter (fun x => String.eqb (sum_created_at x) k) l.

(** What one operation on [sid] keeps: the pointer, the other sessions,
    and of the session itself that it is stored and its [id],
    [created_at] and [display_time]. *)
Definition kept (sid : string) (srv srv' : server) : Prop :=
  current_session srv' = current_session srv /\
  (forall other, other <> sid ->
     chat_sessions srv' !! other = chat_sessions srv !! other) /\
  (forall s, chat_sessions srv !! sid = Some s ->
     exists s', chat_sessions srv' !! sid = Some s' /\ id s' = id s /\
                created_at s' = created_at s /\
                display_time s' = display_time s) /\
  (chat_sessions srv !! sid = None -> srv' = srv).

(** ** Shapes of the server after a command *)

(** What [create_new_session] leaves on the server when the formatter
    gives the label [label]. *)
Definition created (uuid4 : string) (now : datetime) (label : string)
    (srv : server) : server :=
  mkserver
    (<[uuid4 := mksession uuid4 ("New Session (" +:+ label +:+ ")")
                          [initial_message] (strftime now) label]>
       (chat_sessions srv))
    (Some uuid4).

(** The record that [add_message_to_session] writes back. *)
Definition appended (s : session) (m : message) : session :=
  mksession (id s)
    (if String.eqb (role m) "user"
        && (length (messages s ++ [m]) =? 2)%nat
     then substring 0 30 (content m) +:+ "..." else title s)
    (messages s ++ [m]) (created_at s) (display_time s).

(** What is left to spend on a change of title: one while the session
    holds at most one message, nothing once it holds two. *)
Definition credit (sid : string) (srv : server) : nat :=
  match count_of sid srv with
  | Some n => if (n <=? 1)%nat then 1 else 0
  | None => 0
  end.

#[global] Instance date_eq_dec : EqDecision date.
Proof. solve_decision. Defined.

(** ** Running commands in proofs *)

(** Unfolds the commands of a run down to the server they act on. *)
Ltac run :=
  cbv [create_new_session get_current_session get_session_messages
       add_message_to_session get_all_sessions delete_session
       handle_failed_send run_op
       Redis.hset Redis.hget Redis.hgetall Redis.hdel Redis.get Redis.set
       Redis.delete Redis.reply lift mbind mret M_bind M_ret
       result_bind result_ret] in *;
  cbn [chat_sessions current_session decode_responses fst snd
       messages title id created_at display_time role content] in *.

(** Splits on the value of the integer variable [n], known to lie in the
    [fuel] values from [lo] on. *)
Ltac enum_from n lo fuel :=
  lazymatch fuel with
  | O => exfalso; lia
  | S ?f =>
      destruct (Z.eq_dec n lo) as [-> | ?];
      [| let lo' := eval compute in (lo + 1) in enum_from n lo' f]
  end.

(** * Properties *)

(** ** The storage format reads back what was written *)

Section StorageFormat.

Lemma digit_val_digit (n : Z) : 0 <= n < 10 -> digit_val (digit n) = Some n.
Proof.
  intros Hn. enum_from n 0 10%nat; reflexivity.
Qed.

Lemma number2_two_digits (n : Z) :
  0 <= n < 100 -> number2 (digit (n / 10)) (digit (n mod 10)) = Some n.
Proof.
  intros Hn. unfold number2.
  rewrite !digit_val_digit.
  - f_equal. pose proof (Z.div_mod n 10). lia.
  - apply Z.mod_pos_bound. lia.
  - split; [apply Z.div_pos; lia | apply Z.div_lt_upper_bound; lia].
Qed.

Lemma number4_four_digits (n : Z) :
  0 <= n < 10000 ->
  number4 (digit (n / 1000)) (digit (n / 100 mod 10))
          (digit (n / 10 mod 10)) (digit (n mod 10)) = Some n.
Proof.
  intros Hn. unfold number4.
  assert (H100 : 0 <= n / 100 < 100)
    by (split; [apply Z.div_pos; lia | apply Z.div_lt_upper_bound; lia]).
  assert (Hm : 0 <= n mod 100 < 100) by (apply Z.mod_pos_bound; lia).
  replace (n / 1000) with (n / 100 / 10)
    by (rewrite Z.div_div by lia; reflexivity).
  replace (n / 10 mod 10) with (n mod 100 / 10).
  2:{ change 100 with (10 * 10) at 1.
      rewrite Z.rem_mul_r by lia.
      rewrite Z.mul_comm, Z.div_add by lia.
      rewrite (Z.div_small (n mod 10)) by (apply Z.mod_pos_bound; lia).
      reflexivity. }
  replace (n mod 10) with (n mod 100 mod 10).
  2:{ change 100 with (10 * 10) at 1.
      rewrite Z.rem_mul_r by lia.
      rewrite Z.mul_comm, Z.mod_add by lia.
      apply Z.mod_mod. lia. }
  rewrite !number2_two_digits by assumption.
  f_equal. pose proof (Z.div_mod n 100). lia.
Qed.

Lemma valid_datetime_bounds (t : datetime) :
  valid_datetime t = true ->
  (1 <= year (date_of t) <= 9999) /\ (1 <= month (date_of t) <= 12) /\
  (1 <= day (date_of t) <= 31) /\ (0 <= hour t <= 23) /\
  (0 <= minute t <= 59).
Proof.
  unfold valid_datetime, valid_date, days_in_month.
  intros H. repeat (apply andb_prop in H as [H ?]).
  repeat match goal with
         | Hb : (_ <=? _) = true |- _ => apply Z.leb_le in Hb
         end.
  repeat split; try assumption.
  repeat match goal with
         | Hd : context [if ?b then _ else _] |- _ => destruct b
         end; lia.
Qed.

Lemma strptime_strftime (t : datetime) :
  valid_datetime t = true -> strptime (strftime t) = Some t.
Proof.
  intros Hv. pose proof (valid_datetime_bounds t Hv) as (Hy & Hm & Hd & Hh & Hn).
  cbv [strftime four_digits two_digits strptime].
  rewrite number4_four_digits by lia.
  rewrite !number2_two_digits by lia.
  destruct t as [[y m d] h n]; simpl in *. rewrite Hv. reflexivity.
Qed.

End StorageFormat.

(** ** Creating a session *)

Lemma create_new_session_run rc uuid4 now now' srv :
  create_new_session rc uuid4 now now' srv =
  match format_chat_timestamp (strftime now) now' with
  | Ok label => (Ok uuid4, created uuid4 now label srv)
  | Raise e => (Raise e, srv)
  end.
Proof.
  run. destruct (format_chat_timestamp (strftime now) now') as [label | e];
    [| reflexivity].
  rewrite lookup_insert_eq. cbn. unfold created.
  rewrite insert_insert_eq. reflexivity.
Qed.

(** ** The day before *)

Section DayBefore.

Lemma date_eqb_eq (a b : date) : date_eqb a b = true <-> a = b.
Proof.
  destruct a as [y m d], b as [y' m' d']; unfold date_eqb; cbn.
  rewrite !andb_true_iff, !Z.eqb_eq. split.
  - intros [[-> ->] ->]. reflexivity.
  - intros [= -> -> ->]. auto.
Qed.

Lemma valid_date_bounds (d : date) :
  valid_date d = true ->
  1 <= year d <= 9999 /\ 1 <= month d <= 12 /\
  1 <= day d <= days_in_month (year d) (month d).
Proof.
  unfold valid_date. intros H. repeat (apply andb_prop in H as [H ?]).
  repeat match goal with
         | Hb : (_ <=? _) = true |- _ => apply Z.leb_le in Hb
         end.
  lia.
Qed.

(** A month starts where the month before it ends. *)
Lemma days_before_next_month (y m : Z) :
  1 <= m < 12 ->
  days_before_month y (m + 1) = days_before_month y m + days_in_month y m.
Proof.
  intros Hm. unfold days_before_month, days_in_month.
  enum_from m 1 11%nat; destruct (is_leap y); reflexivity.
Qed.

(** A year starts where the year before it ends. *)
Lemma days_before_next_year (y : Z) :
  days_before_year (y + 1) =
  days_before_year y + days_before_month y 12 + 31.
Proof.
  unfold days_before_year, days_before_month, is_leap.
  change (2 <? 12) with true. cbv zeta.
  replace (y + 1 - 1) with y by lia.
  destruct (y mod 4 =? 0) eqn:E4; destruct (y mod 100 =? 0) eqn:E100;
    destruct (y mod 400 =? 0) eqn:E400; cbn [negb orb andb];
    rewrite ?Z.eqb_eq, ?Z.eqb_neq in *;
    Z.to_euclidean_division_equations; lia.
Qed.

Lemma minus_one_day_ordinal (d : date) :
  valid_date d = true -> d <> date_min ->
  exists p, minus_one_day d = Ok p /\ valid_date p = true /\
            toordinal p = toordinal d - 1.
Proof.
  intros Hv Hmin. pose proof (valid_date_bounds d Hv) as (Hy & Hm & Hd).
  destruct d as [y m dd]; cbn [year month day] in *.
  unfold minus_one_day; cbn [year month day].
  destruct (1 <? dd) eqn:Ed; [| destruct (1 <? m) eqn:Em;
                                 [| destruct (1 <? y) eqn:Ey]];
    rewrite ?Z.ltb_lt, ?Z.ltb_ge in *.
  - eexists; split; [reflexivity |]. split.
    + unfold valid_date; cbn [year month day].
      repeat (apply andb_true_intro; split); apply Z.leb_le; lia.
    + unfold toordinal; cbn [year month day]. lia.
  - eexists; split; [reflexivity |]. split.
    + unfold valid_date; cbn [year month day].
      repeat (apply andb_true_intro; split); apply Z.leb_le; try lia.
      unfold days_in_month.
      repeat match goal with |- context [if ?b then _ else _] => destruct b end;
        lia.
    + unfold toordinal; cbn [year month day].
      pose proof (days_before_next_month y (m - 1)) as Hn.
      replace (m - 1 + 1) with m in Hn by lia. lia.
  - eexists; split; [reflexivity |]. split.
    + unfold valid_date; cbn [year month day].
      repeat (apply andb_true_intro; split); apply Z.leb_le; try lia.
      reflexivity.
    + unfold toordinal; cbn [year month day].
      pose proof (days_before_next_year (y - 1)) as Hn.
      replace (y - 1 + 1) with y in Hn by lia.
      assert (m = 1) as -> by lia.
      assert (Hz : days_before_month y 1 = 0) by reflexivity. lia.
  - exfalso. apply Hmin. unfold date_min. f_equal; lia.
Qed.

End DayBefore.

(** ** Day numbers tell dates apart *)

Section Ordinals.

Lemma days_before_year_mono (y1 y2 : Z) :
  y1 <= y2 -> days_before_year y1 <= days_before_year y2.
Proof.
  unfold days_before_year. cbv zeta. intros H.
  Z.to_euclidean_division_equations. lia.
Qed.

(** The day of the year of a valid date lies within its year. *)
Lemma day_of_year_bounds (d : date) :
  valid_date d = true ->
  1 <= days_before_month (year d) (month d) + day d
    <= days_before_month (year d) 12 + 31.
Proof.
  intros Hv. pose proof (valid_date_bounds d Hv) as (_ & Hm & Hd).
  destruct d as [y m dd]; cbn [year month day] in *.
  revert Hd. unfold days_before_month, days_in_month.
  enum_from m 1 12%nat; destruct (is_leap y); cbn; lia.
Qed.

Lemma toordinal_lt_year (a b : date) :
  valid_date a = true -> valid_date b = true ->
  year a < year b -> toordinal a < toordinal b.
Proof.
  intros Ha Hb Hlt. unfold toordinal.
  pose proof (day_of_year_bounds a Ha). pose proof (day_of_year_bounds b Hb).
  pose proof (days_before_next_year (year a)).
  pose proof (days_before_year_mono (year a + 1) (year b)). lia.
Qed.

Lemma toordinal_lt_month (a b : date) :
  valid_date a = true -> valid_date b = true ->
  year a = year b -> month a < month b -> toordinal a < toordinal b.
Proof.
  intros Ha Hb Hy Hlt.
  pose proof (valid_date_bounds a Ha) as (_ & Hma & Hda).
  pose proof (valid_date_bounds b Hb) as (_ & Hmb & Hdb).
  unfold toordinal. rewrite <- Hy in *.
  destruct a as [y m dd], b as [y' m' dd']; cbn [year month day] in *.
  enough (days_before_month y m + days_in_month y m <= days_before_month y m')
    by lia.
  clear - Hma Hmb Hlt.
  unfold days_before_month, days_in_month.
  enum_from m 1 12%nat; enum_from m' 1 12%nat; try lia;
    destruct (is_leap y); cbn; lia.
Qed.

Lemma toordinal_inj (a b : date) :
  valid_date a = true -> valid_date b = true ->
  toordinal a = toordinal b -> a = b.
Proof.
  intros Ha Hb Heq.
  destruct (Z.lt_total (year a) (year b)) as [Hy | [Hy | Hy]].
  - pose proof (toordinal_lt_year a b Ha Hb Hy). lia.
  - destruct (Z.lt_total (month a) (month b)) as [Hm | [Hm | Hm]].
    + pose proof (toordinal_lt_month a b Ha Hb Hy Hm). lia.
    + unfold toordinal in Heq. rewrite Hy, Hm in Heq.
      destruct a, b; cbn [year month day] in *. f_equal; lia.
    + pose proof (toordinal_lt_month b a Hb Ha (eq_sym Hy) Hm). lia.
  - pose proof (toordinal_lt_year b a Hb Ha Hy). lia.
Qed.

Lemma strptime_valid (s : string) (t : datetime) :
  strptime s = Some t -> valid_datetime t = true.
Proof.
  unfold strptime.
  repeat match goal with
         | |- context [match ?x with _ => _ end] =>
             destruct x eqn:?; try discriminate
         end.
  intros [= <-]. assumption.
Qed.

End Ordinals.

(** ** The timestamp formatter *)

Lemma valid_datetime_date (t : datetime) :
  valid_datetime t = true -> valid_date (date_of t) = true.
Proof.
  unfold valid_datetime. intros H.
  do 4 (apply andb_prop in H as [H _]). exact H.
Qed.

Lemma date_eqb_decide (a b : date) : date_eqb a b = bool_decide (a = b).
Proof.
  destruct (date_eqb a b) eqn:E.
  - apply date_eqb_eq in E. symmetry. by apply bool_decide_eq_true.
  - symmetry. apply bool_decide_eq_false. intros H.
    apply date_eqb_eq in H. congruence.
Qed.

Example wednesday : day_name (mkdate 2024 1 3) = "Wednesday".
Proof. reflexivity. Qed.

Example monday_is_zero : weekday (mkdate 1 1 1) = 0.
Proof. reflexivity. Qed.

(** A session created at 23:59 and looked at two minutes later, after
    midnight, already reads "Yesterday". *)
Example yesterday_after_two_minutes :
  format_chat_timestamp "2024-01-03 23:59"
                        (mkdatetime (mkdate 2024 1 4) 0 1) = Ok "Yesterday".
Proof. reflexivity. Qed.

(** On [date.min] there is no day before, and the subtraction raises
    before any comparison is made. *)
Example no_day_before_date_min :
  format_chat_timestamp "0001-01-01 00:00" (mkdatetime date_min 0 0)
  = Raise OverflowError.
Proof. reflexivity. Qed.

(** C8. For every timestamp string that parses and every reading of the
    clock after [date.min], [format_chat_timestamp] returns "Today" when
    the date of the timestamp is the date of the clock, "Yesterday" when
    it is the day numbered one less, and the name of the weekday of the
    timestamp otherwise. Hours and minutes of either side play no part. *)
Theorem format_chat_timestamp_by_date
    (timestamp_str : string) (timestamp now : datetime) :
  strptime timestamp_str = Some timestamp ->
  valid_datetime now = true ->
  date_of now <> date_min ->
  format_chat_timestamp timestamp_str now =
  Ok (if bool_decide (date_of timestamp = date_of now) then "Today"
      else if bool_decide (toordinal (date_of timestamp)
                           = toordinal (date_of now) - 1) then "Yesterday"
      else day_name (date_of timestamp)).
Proof.
  intros Hparse Hnow Hmin.
  pose proof (valid_datetime_date _ (strptime_valid _ _ Hparse)) as Hts.
  destruct (minus_one_day_ordinal (date_of now) (valid_datetime_date _ Hnow) Hmin)
    as (y & Hy & Hyv & Hord).
  unfold format_chat_timestamp. rewrite Hparse. cbn. rewrite Hy. cbn.
  rewrite !date_eqb_decide.
  destruct (bool_decide (date_of timestamp = date_of now)); [reflexivity |].
  rewrite <- Hord.
  destruct (decide (date_of timestamp = y)) as [-> | Hne].
  - rewrite !bool_decide_eq_true_2 by reflexivity. reflexivity.
  - rewrite !bool_decide_eq_false_2; [reflexivity | | assumption].
    intros Heq. apply Hne. by apply toordinal_inj.
Qed.

Lemma format_chat_timestamp_by_date_witness :
  format_chat_timestamp "2024-01-01 10:00" (mkdatetime (mkdate 2024 1 3) 9 5)
  = Ok "Monday".
Proof.
  apply (format_chat_timestamp_by_date "2024-01-01 10:00"
           (mkdatetime (mkdate 2024 1 1) 10 0)
           (mkdatetime (mkdate 2024 1 3) 9 5)).
  - reflexivity.
  - reflexivity.
  - discriminate.
Defined.

(** The formatter returns on what [create_new_session] feeds it. *)
Lemma format_chat_timestamp_returns (now now' : datetime) :
  valid_datetime now = true -> valid_datetime now' = true ->
  date_of now' <> date_min ->
  exists label, format_chat_timestamp (strftime now) now' = Ok label.
Proof.
  intros Hv Hv' Hmin.
  destruct (minus_one_day_ordinal (date_of now') (valid_datetime_date _ Hv') Hmin)
    as (y & Hy & _).
  unfold format_chat_timestamp.
  rewrite strptime_strftime by assumption. cbn. rewrite Hy. cbn.
  destruct (date_eqb (date_of now) (date_of now')); [eauto |].
  destruct (date_eqb (date_of now) y); eauto.
Qed.

(** ** Creating a session, continued *)

(** With clocks that read dates after [date.min], [create_new_session]
    returns the id it drew. *)
Lemma create_new_session_returns rc uuid4 now now' srv :
  valid_datetime now = true -> valid_datetime now' = true ->
  date_of now' <> date_min ->
  exists label,
    create_new_session rc uuid4 now now' srv
    = (Ok uuid4, created uuid4 now label srv).
Proof.
  intros Hv Hv' Hmin.
  destruct (format_chat_timestamp_returns now now' Hv Hv' Hmin) as [label Hl].
  exists label. rewrite create_new_session_run, Hl. reflexivity.
Qed.

Lemma create_new_session_inv rc uuid4 now now' srv sid srv' :
  create_new_session rc uuid4 now now' srv = (Ok sid, srv') ->
  sid = uuid4 /\ exists label, srv' = created uuid4 now label srv.
Proof.
  rewrite create_new_session_run.
  destruct (format_chat_timestamp (strftime now) now'); [| discriminate].
  intros [= <- <-]. eauto.
Qed.

(** C1. Whenever [create_new_session] returns an id, reading the messages
    of that id right after gives exactly one message, of role
    "assistant", whose content is the greeting. *)
Theorem greeting_after_create rc uuid4 now now' srv sid srv' :
  create_new_session rc uuid4 now now' srv = (Ok sid, srv') ->
  get_session_messages rc sid srv'
  = (Ok [mkmessage "assistant"
           "Hello! I am TeachPy. To get started, could you please tell me which version of Python you'd like to learn (Python 2 or Python 3) and what you would consider your current skill level: *Beginner*, *Intermediate*, or *Advanced*?"],
     srv').
Proof.
  intros Hc. apply create_new_session_inv in Hc as (-> & label & ->).
  run. unfold created. cbn. rewrite lookup_insert_eq. reflexivity.
Qed.

Lemma greeting_after_create_witness :
  exists srv',
    create_new_session redis_client "5f0c" (mkdatetime (mkdate 2024 1 3) 9 5)
      (mkdatetime (mkdate 2024 1 3) 9 5) (mkserver ∅ None) = (Ok "5f0c", srv')
    /\ get_session_messages redis_client "5f0c" srv'
       = (Ok [initial_message], srv').
Proof.
  eexists. split.
  - vm_compute. reflexivity.
  - apply (greeting_after_create redis_client "5f0c"
             (mkdatetime (mkdate 2024 1 3) 9 5)
             (mkdatetime (mkdate 2024 1 3) 9 5) (mkserver ∅ None)).
    vm_compute. reflexivity.
Defined.

(** ** Appending a message *)

Lemma add_message_to_session_run rc sid m srv :
  add_message_to_session rc sid m srv =
  match chat_sessions srv !! sid with
  | Some s => (Ok tt, mkserver (<[sid := appended s m]> (chat_sessions srv))
                               (current_session srv))
  | None => (Ok tt, srv)
  end.
Proof. run. destruct (chat_sessions srv !! sid); reflexivity. Qed.

(** C6. Appending to a session id that the store does not hold raises
    nothing and leaves the whole server as it was. *)
Theorem add_message_to_missing_session rc sid m srv :
  chat_sessions srv !! sid = None ->
  add_message_to_session rc sid m srv = (Ok tt, srv).
Proof. intros H. rewrite add_message_to_session_run, H. reflexivity. Qed.

Lemma add_message_to_missing_session_witness :
  add_message_to_session redis_client "gone" (mkmessage "user" "hi")
    (mkserver ∅ (Some "gone"))
  = (Ok tt, mkserver ∅ (Some "gone")).
Proof.
  apply (add_message_to_missing_session redis_client "gone"
           (mkmessage "user" "hi") (mkserver ∅ (Some "gone"))).
  reflexivity.
Defined.

(** *** The title written at the first user message *)

Lemma substring_split (n : nat) (s : string) :
  exists rest, s = substring 0 n s +:+ rest /\
               String.length (substring 0 n s) = Nat.min n (String.length s).
Proof.
  revert s. induction n as [| n IH]; intros s.
  - exists s. destruct s; split; reflexivity.
  - destruct s as [| c s].
    + exists "". split; reflexivity.
    + destruct (IH s) as (rest & Hs & Hlen). exists rest. cbn. split.
      * change (String c s = String c (substring 0 n s +:+ rest)).
        f_equal. exact Hs.
      * f_equal. exact Hlen.
Qed.

Lemma substring_short (n : nat) (s : string) :
  (String.length s <= n)%nat -> substring 0 n s = s.
Proof.
  revert s. induction n as [| n IH]; intros [| c s] Hlen; cbn in *;
    try reflexivity; try lia.
  f_equal. apply IH. lia.
Qed.

(** C10. When the second message of a session is appended and its role is
    "user", the stored title is the content followed by "..." if the
    content has at most 30 characters, nothing having been cut, and the
    first 30 characters followed by "..." if it has more. *)
Theorem retitle_always_appends_ellipsis rc sid (m : message) srv s :
  chat_sessions srv !! sid = Some s ->
  length (messages s) = 1%nat ->
  role m = "user" ->
  let srv' := (add_message_to_session rc sid m srv).2 in
  ((String.length (content m) <= 30)%nat ->
     title_of sid srv' = Some (content m +:+ "..."))
  /\ ((30 < String.length (content m))%nat ->
      exists first rest,
        content m = first +:+ rest /\ String.length first = 30%nat /\
        title_of sid srv' = Some (first +:+ "...")).
Proof.
  intros Hs Hlen Hrole srv'.
  assert (Ht : title_of sid srv'
               = Some (substring 0 30 (content m) +:+ "...")).
  { subst srv'. rewrite add_message_to_session_run, Hs. cbn.
    unfold title_of. cbn. rewrite lookup_insert_eq. cbn.
    rewrite length_app, Hlen, Hrole. reflexivity. }
  split.
  - intros Hshort. rewrite Ht, substring_short by assumption. reflexivity.
  - intros Hlong.
    destruct (substring_split 30 (content m)) as (rest & Hsplit & Hl).
    exists (substring 0 30 (content m)), rest.
    split; [exact Hsplit |]. split; [lia | exact Ht].
Qed.

Lemma retitle_always_appends_ellipsis_witness :
  title_of "5f0c"
    (add_message_to_session redis_client "5f0c" (mkmessage "user" "hi")
       (mkserver {[ "5f0c" := mksession "5f0c" "New Session (Today)"
                                [initial_message] "2024-01-03 09:05" "Today" ]}
                 (Some "5f0c"))).2
  = Some "hi...".
Proof.
  apply (retitle_always_appends_ellipsis redis_client "5f0c"
           (mkmessage "user" "hi")
           (mkserver {[ "5f0c" := mksession "5f0c" "New Session (Today)"
                                    [initial_message] "2024-01-03 09:05"
                                    "Today" ]}
                     (Some "5f0c"))
           (mksession "5f0c" "New Session (Today)" [initial_message]
                      "2024-01-03 09:05" "Today")).
  - reflexivity.
  - reflexivity.
  - reflexivity.
  - cbn. lia.
Defined.

(** ** Rolling back a failed send *)

(** C4. On a stored session whose last message has role "user",
    [handle_failed_send] writes the record back without that one message:
    the messages before it and every other field, every other session and
    the pointer are as they were. When the messages are empty or the last
    one has another role, the server is left exactly as it was. *)
Theorem handle_failed_send_drops_last_user_message rc sid srv s :
  chat_sessions srv !! sid = Some s ->
  (forall (earlier : list message) (m : message),
     messages s = (earlier ++ [m])%list -> role m = "user" ->
     handle_failed_send rc sid srv
     = (Ok tt,
        mkserver (<[sid := mksession (id s) (title s) earlier
                                     (created_at s) (display_time s)]>
                    (chat_sessions srv))
                 (current_session srv)))
  /\ ((forall m, last (messages s) = Some m -> role m <> "user") ->
      handle_failed_send rc sid srv = (Ok tt, srv)).
Proof.
  intros Hs. split.
  - intros earlier m Hm Hrole. run. rewrite Hs, Hm, last_snoc, Hrole. cbn.
    rewrite removelast_last. reflexivity.
  - intros Hlast. run. rewrite Hs.
    destruct (last (messages s)) as [m |] eqn:El; [| reflexivity].
    specialize (Hlast m eq_refl).
    destruct (String.eqb (role m) "user") eqn:E; [| reflexivity].
    apply String.eqb_eq in E. contradiction.
Qed.

Lemma handle_failed_send_drops_last_user_message_witness :
  handle_failed_send redis_client "5f0c"
    (mkserver {[ "5f0c" := mksession "5f0c" "hi..."
                             [initial_message; mkmessage "user" "hi"]
                             "2024-01-03 09:05" "Today" ]}
              (Some "5f0c"))
  = (Ok tt,
     mkserver (<[ "5f0c" := mksession "5f0c" "hi..." [initial_message]
                              "2024-01-03 09:05" "Today" ]>
                 {[ "5f0c" := mksession "5f0c" "hi..."
                                [initial_message; mkmessage "user" "hi"]
                                "2024-01-03 09:05" "Today" ]})
              (Some "5f0c")).
Proof.
  refine (proj1 (handle_failed_send_drops_last_user_message redis_client
                   "5f0c" _ (mksession "5f0c" "hi..."
                      [initial_message; mkmessage "user" "hi"]
                      "2024-01-03 09:05" "Today") _)
            [initial_message] (mkmessage "user" "hi") _ _);
    reflexivity.
Defined.

(** ** How often the title changes *)

Section TitleChanges.

Variable rc : client.
Variable sid : string.

Lemma handle_failed_send_run srv :
  handle_failed_send rc sid srv =
  match chat_sessions srv !! sid with
  | Some s =>
      match last (messages s) with
      | Some m =>
          if String.eqb (role m) "user"
          then (Ok tt,
                mkserver (<[sid := mksession (id s) (title s)
                                     (removelast (messages s))
                                     (created_at s) (display_time s)]>
                            (chat_sessions srv))
                         (current_session srv))
          else (Ok tt, srv)
      | None => (Ok tt, srv)
      end
  | None => (Ok tt, srv)
  end.
Proof.
  run. destruct (chat_sessions srv !! sid) as [s |]; [| reflexivity].
  destruct (last (messages s)) as [m |]; [| reflexivity].
  destruct (String.eqb (role m) "user"); reflexivity.
Qed.

(** A rollback never touches the title. *)
Lemma handle_failed_send_title srv :
  title_of sid (handle_failed_send rc sid srv).2 = title_of sid srv.
Proof.
  rewrite handle_failed_send_run. unfold title_of.
  destruct (chat_sessions srv !! sid) as [s |] eqn:Es; cbn; [| by rewrite Es].
  destruct (last (messages s)) as [m |]; cbn; [| by rewrite Es].
  destruct (String.eqb (role m) "user"); cbn; [| by rewrite Es].
  rewrite lookup_insert_eq. reflexivity.
Qed.

(** An append changes the title only when it is the user message that
    brings the count to two, and then to the cut content and "...". *)
Lemma add_message_title_change (m : message) srv :
  let srv' := (add_message_to_session rc sid m srv).2 in
  title_of sid srv <> title_of sid srv' ->
  role m = "user" /\ count_of sid srv' = Some 2%nat /\
  title_of sid srv' = Some (substring 0 30 (content m) +:+ "...").
Proof.
  cbv zeta. rewrite add_message_to_session_run. unfold title_of, count_of.
  destruct (chat_sessions srv !! sid) as [s |] eqn:Es; cbn;
    [| rewrite Es; intros H; by destruct H].
  rewrite lookup_insert_eq. cbn.
  destruct (String.eqb (role m) "user") eqn:Er; cbn;
    [| intros H; by destruct H].
  destruct (length (messages s ++ [m]) =? 2)%nat eqn:El;
    [| intros H; by destruct H].
  intros _. apply String.eqb_eq in Er. apply Nat.eqb_eq in El.
  rewrite El. auto.
Qed.

Lemma credit_le_1 srv : (credit sid srv <= 1)%nat.
Proof.
  unfold credit. destruct (count_of sid srv) as [n |]; [| lia].
  destruct (n <=? 1)%nat; lia.
Qed.

Lemma add_message_pays (m : message) srv :
  let srv' := (add_message_to_session rc sid m srv).2 in
  ((if bool_decide (title_of sid srv = title_of sid srv') then 0 else 1)
   + credit sid srv' <= credit sid srv)%nat.
Proof.
  cbv zeta. unfold credit.
  case_bool_decide as Hch.
  - rewrite add_message_to_session_run. unfold count_of.
    destruct (chat_sessions srv !! sid) as [s |] eqn:Es; cbn;
      [| rewrite Es; cbn; lia].
    rewrite lookup_insert_eq. cbn. rewrite length_app. cbn.
    destruct (length (messages s)) as [| [| n]]; cbn; lia.
  - pose proof (add_message_title_change m srv Hch) as (_ & Hc & _).
    rewrite Hc. cbn.
    revert Hc. rewrite add_message_to_session_run. unfold count_of.
    destruct (chat_sessions srv !! sid) as [s |] eqn:Es; cbn;
      [| rewrite Es; discriminate].
    rewrite lookup_insert_eq. cbn. rewrite length_app. cbn.
    intros [= Hl]. assert (length (messages s) = 1%nat) as -> by lia.
    cbn. lia.
Qed.

(** Every change of title is paid from the credit or by a rollback. *)
Lemma title_changes_bound (ops : list op) srv :
  (title_changes rc sid ops srv <= credit sid srv + failed_sends ops)%nat.
Proof.
  revert srv. induction ops as [| o ops IH]; intros srv; cbn; [lia |].
  specialize (IH (run_op rc sid o srv).2).
  destruct o as [m |]; cbn [run_op is_failed_send] in *.
  - pose proof (add_message_pays m srv) as Hpay. cbv zeta in Hpay.
    unfold failed_sends in *. lia.
  - rewrite handle_failed_send_title.
    rewrite bool_decide_eq_true_2 by reflexivity.
    pose proof (credit_le_1 (handle_failed_send rc sid srv).2).
    unfold failed_sends in *. cbn [length]. lia.
Qed.

(** Once a session holds two messages, appends leave its title alone. *)
Lemma no_change_from_two_messages (ops : list op) srv :
  failed_sends ops = 0%nat -> credit sid srv = 0%nat ->
  title_of sid (run_ops rc sid ops srv) = title_of sid srv.
Proof.
  revert srv. induction ops as [| o ops IH]; intros srv Hfs Hcr;
    [reflexivity |].
  destruct o as [m |]; [| discriminate Hfs].
  cbn [run_ops run_op].
  pose proof (add_message_pays m srv) as Hpay. cbv zeta in Hpay.
  case_bool_decide as Hch; [| lia].
  rewrite IH; [by symmetry | exact Hfs | lia].
Qed.

End TitleChanges.

Lemma run_ops_app rc sid (before after : list op) srv :
  run_ops rc sid (before ++ after) srv
  = run_ops rc sid after (run_ops rc sid before srv).
Proof.
  revert srv. induction before as [| o before IH]; intros srv;
    [reflexivity |]. cbn. apply IH.
Qed.

Lemma credit_created sid now label srv :
  credit sid (created sid now label srv) = 1%nat.
Proof.
  unfold credit, count_of, created. cbn. rewrite lookup_insert_eq.
  reflexivity.
Qed.

(** C2, as the code has it. From the creation of a session on, through any
    appends and rollbacks: the title changes only across an append of a
    "user" message that brings the count to two, and then to the first 30
    characters of its content and "..."; it changes at most once more
    than there were rollbacks, so at most once when there was none; and
    from a point where the session holds two messages on, appends of any
    role leave it as it is. *)
Theorem title_changes_at_second_user_message
    rc uuid4 now now' srv sid srv0 (ops : list op) :
  create_new_session rc uuid4 now now' srv = (Ok sid, srv0) ->
  (forall (before after : list op) (o : op),
     ops = (before ++ o :: after)%list ->
     let s := run_ops rc sid before srv0 in
     let s' := (run_op rc sid o s).2 in
     title_of sid s <> title_of sid s' ->
     exists m, o = Append m /\ role m = "user" /\
               count_of sid s' = Some 2%nat /\
               title_of sid s'
               = Some (substring 0 30 (content m) +:+ "..."))
  /\ (title_changes rc sid ops srv0 <= 1 + failed_sends ops)%nat
  /\ (failed_sends ops = 0%nat -> (title_changes rc sid ops srv0 <= 1)%nat)
  /\ (forall (before after : list op) (n : nat),
        ops = (before ++ after)%list -> failed_sends after = 0%nat ->
        count_of sid (run_ops rc sid before srv0) = Some n -> (2 <= n)%nat ->
        title_of sid (run_ops rc sid ops srv0)
        = title_of sid (run_ops rc sid before srv0)).
Proof.
  intros Hc. apply create_new_session_inv in Hc as (-> & label & ->).
  pose proof (title_changes_bound rc uuid4 ops (created uuid4 now label srv))
    as Hb.
  rewrite credit_created in Hb.
  split; [| split; [| split]].
  - intros before after o _ s s' Hch. destruct o as [m |].
    + exists m. split; [reflexivity |].
      exact (add_message_title_change rc uuid4 m s Hch).
    + exfalso. apply Hch. subst s'. cbn [run_op].
      by rewrite handle_failed_send_title.
  - exact Hb.
  - intros Hfs. rewrite Hfs in Hb. lia.
  - intros before after n -> Hfs Hn Hle. rewrite run_ops_app.
    apply no_change_from_two_messages; [exact Hfs |].
    unfold credit. rewrite Hn.
    destruct n as [| [| n]]; [lia | lia | reflexivity].
Qed.

Lemma title_changes_at_second_user_message_witness :
  (title_changes redis_client "5f0c"
     [Append (mkmessage "user" "hi"); Append (mkmessage "assistant" "hello");
      Append (mkmessage "user" "more")]
     (create_new_session redis_client "5f0c"
        (mkdatetime (mkdate 2024 1 3) 9 5) (mkdatetime (mkdate 2024 1 3) 9 5)
        (mkserver ∅ None)).2 <= 1)%nat.
Proof.
  refine (proj1 (proj2 (proj2
    (title_changes_at_second_user_message redis_client "5f0c"
       (mkdatetime (mkdate 2024 1 3) 9 5) (mkdatetime (mkdate 2024 1 3) 9 5)
       (mkserver ∅ None) "5f0c" _ _ _))) _).
  - vm_compute. reflexivity.
  - reflexivity.
Defined.

(** C2, as stated, fails: a first user message, its rollback and another
    user message change the title twice. *)
Lemma title_changes_twice_across_rollback :
  ~ (title_changes redis_client "5f0c"
       [Append (mkmessage "user" "first try"); FailedSend;
        Append (mkmessage "user" "second try")]
       (create_new_session redis_client "5f0c"
          (mkdatetime (mkdate 2024 1 3) 9 5)
          (mkdatetime (mkdate 2024 1 3) 9 5)
          (mkserver ∅ None)).2 <= 1)%nat.
Proof. vm_compute. lia. Qed.

(** The titles along that history. *)
Example titles_across_rollback :
  let srv0 := (create_new_session redis_client "5f0c"
                 (mkdatetime (mkdate 2024 1 3) 9 5)
                 (mkdatetime (mkdate 2024 1 3) 9 5) (mkserver ∅ None)).2 in
  let srv1 := run_ops redis_client "5f0c"
                [Append (mkmessage "user" "first try")] srv0 in
  let srv2 := run_ops redis_client "5f0c" [FailedSend] srv1 in
  let srv3 := run_ops redis_client "5f0c"
                [Append (mkmessage "user" "second try")] srv2 in
  title_of "5f0c" srv0 = Some "New Session (Today)" /\
  title_of "5f0c" srv1 = Some "first try..." /\
  title_of "5f0c" srv2 = Some "first try..." /\
  count_of "5f0c" srv2 = Some 1%nat /\
  title_of "5f0c" srv3 = Some "second try...".
Proof. vm_compute. repeat split. Qed.

(** ** Reading the pointer *)

Lemma nonempty_eqb (p : string) : p <> "" -> String.eqb p "" = false.
Proof. intros H. by apply String.eqb_neq. Qed.

(** Without a pointer the call is [create_new_session], whatever the
    client. *)
Lemma get_current_session_absent rc uuid4 now now' srv :
  current_session srv = None ->
  get_current_session rc uuid4 now now' srv
  = create_new_session rc uuid4 now now' srv.
Proof. intros H. run. rewrite H. reflexivity. Qed.

(** A client that hands back [bytes] returns the pointer it reads. *)
Lemma get_current_session_bytes uuid4 now now' srv (p : string) :
  current_session srv = Some p -> p <> "" ->
  get_current_session (from_url false) uuid4 now now' srv = (Ok p, srv).
Proof.
  intros H Hp. run. rewrite H. cbn. rewrite nonempty_eqb by assumption.
  reflexivity.
Qed.

(** A client that decodes replies hands back a [str], which has no
    [.decode]. *)
Lemma get_current_session_str uuid4 now now' srv (p : string) :
  current_session srv = Some p -> p <> "" ->
  get_current_session redis_client uuid4 now now' srv
  = (Raise AttributeError, srv).
Proof.
  intros H Hp. run. rewrite H. cbn. rewrite nonempty_eqb by assumption.
  reflexivity.
Qed.

(** C3, where the code departs from it. Without a pointer,
    [get_current_session] is [create_new_session], and the id it returns
    is stored and is the new pointer. With a pointer, the client of the
    program, which decodes replies to [str], makes it raise
    [AttributeError] at [.decode] instead of returning the pointer; the
    server is left as it was. *)
Theorem get_current_session_raises_on_pointer uuid4 now now' srv :
  (current_session srv = None ->
   forall sid srv',
     get_current_session redis_client uuid4 now now' srv = (Ok sid, srv') ->
     sid = uuid4 /\ current_session srv' = Some sid /\
     is_Some (chat_sessions srv' !! sid))
  /\ (forall p : string,
        current_session srv = Some p -> p <> "" ->
        get_current_session redis_client uuid4 now now' srv
        = (Raise AttributeError, srv)).
Proof.
  split.
  - intros Habs sid srv' Hc.
    rewrite get_current_session_absent in Hc by assumption.
    apply create_new_session_inv in Hc as (-> & label & ->).
    unfold created. cbn. rewrite lookup_insert_eq. eauto.
  - intros p Hp Hne. by apply get_current_session_str with p.
Qed.

Lemma get_current_session_raises_on_pointer_witness :
  get_current_session redis_client "77aa"
    (mkdatetime (mkdate 2024 1 3) 9 5) (mkdatetime (mkdate 2024 1 3) 9 5)
    (mkserver {[ "5f0c" := mksession "5f0c" "New Session (Today)"
                             [initial_message] "2024-01-03 09:05" "Today" ]}
              (Some "5f0c"))
  = (Raise AttributeError,
     mkserver {[ "5f0c" := mksession "5f0c" "New Session (Today)"
                             [initial_message] "2024-01-03 09:05" "Today" ]}
              (Some "5f0c")).
Proof.
  apply (proj2 (get_current_session_raises_on_pointer "77aa"
                  (mkdatetime (mkdate 2024 1 3) 9 5)
                  (mkdatetime (mkdate 2024 1 3) 9 5) _) "5f0c").
  - reflexivity.
  - discriminate.
Defined.

(** C9, where the code departs from it. Whenever a call of
    [get_current_session] returns, it has just set the pointer, and the
    next call, with nothing done in between, raises [AttributeError]
    instead of returning the same id. *)
Theorem get_current_session_again_raises
    uuid4 now now' srv sid srv1 uuid4' now2 now2' :
  uuid4 <> "" ->
  get_current_session redis_client uuid4 now now' srv = (Ok sid, srv1) ->
  get_current_session redis_client uuid4' now2 now2' srv1
  = (Raise AttributeError, srv1).
Proof.
  intros Hne Hfirst.
  assert (Hptr : current_session srv1 = Some uuid4).
  { destruct (current_session srv) as [p |] eqn:Ep.
    - destruct (String.eqb p "") eqn:E.
      + revert Hfirst. unfold get_current_session, Redis.get, mbind, M_bind.
        rewrite Ep. cbn. rewrite E. cbn. intros Hc.
        apply create_new_session_inv in Hc as (_ & label & ->). reflexivity.
      + apply String.eqb_neq in E.
        rewrite (get_current_session_str _ _ _ _ _ Ep E)
          in Hfirst. discriminate.
    - rewrite get_current_session_absent in Hfirst by assumption.
      apply create_new_session_inv in Hfirst as (_ & label & ->).
      reflexivity. }
  run. rewrite Hptr. cbn. rewrite nonempty_eqb by assumption. reflexivity.
Qed.

Lemma get_current_session_again_raises_witness :
  exists srv1,
    get_current_session redis_client "5f0c"
      (mkdatetime (mkdate 2024 1 3) 9 5) (mkdatetime (mkdate 2024 1 3) 9 5)
      (mkserver ∅ None) = (Ok "5f0c", srv1)
    /\ get_current_session redis_client "77aa"
         (mkdatetime (mkdate 2024 1 3) 9 6) (mkdatetime (mkdate 2024 1 3) 9 6)
         srv1 = (Raise AttributeError, srv1).
Proof.
  eexists. split.
  - vm_compute. reflexivity.
  - apply (get_current_session_again_raises "5f0c"
             (mkdatetime (mkdate 2024 1 3) 9 5)
             (mkdatetime (mkdate 2024 1 3) 9 5) (mkserver ∅ None) "5f0c").
    + discriminate.
    + vm_compute. reflexivity.
Defined.

(** With a client that hands back [bytes], the second call returns what
    the first returned. *)
Lemma get_current_session_bytes_idempotent
    uuid4 now now' srv sid srv1 uuid4' now2 now2' :
  uuid4 <> "" -> (forall p, current_session srv = Some p -> p <> "") ->
  get_current_session (from_url false) uuid4 now now' srv = (Ok sid, srv1) ->
  get_current_session (from_url false) uuid4' now2 now2' srv1
  = (Ok sid, srv1).
Proof.
  intros Hne Hp Hfirst.
  destruct (current_session srv) as [p |] eqn:Ep.
  - specialize (Hp p eq_refl).
    rewrite (get_current_session_bytes _ _ _ _ _ Ep Hp) in Hfirst.
    injection Hfirst as <- <-. by apply get_current_session_bytes.
  - rewrite get_current_session_absent in Hfirst by assumption.
    apply create_new_session_inv in Hfirst as (-> & label & ->).
    by apply get_current_session_bytes.
Qed.

(** ** Deleting a session *)

(** With a client that hands back [bytes], the record goes, the pointer
    goes with it when it named the record, and a pointer that named a
    stored session still does. *)
Lemma delete_session_bytes sid srv :
  (forall p, current_session srv = Some p -> p <> "") ->
  delete_session (from_url false) sid srv
  = (Ok tt,
     mkserver (base.delete sid (chat_sessions srv))
              (if bool_decide (current_session srv = Some sid)
               then None else current_session srv)).
Proof.
  intros Hp. run. destruct (current_session srv) as [p |] eqn:Ep; cbn.
  - rewrite nonempty_eqb by auto. cbn.
    destruct (String.eqb p sid) eqn:E.
    + apply String.eqb_eq in E as ->.
      rewrite bool_decide_eq_true_2 by reflexivity. reflexivity.
    + apply String.eqb_neq in E.
      rewrite bool_decide_eq_false_2 by congruence. reflexivity.
  - reflexivity.
Qed.

Lemma delete_session_bytes_pointer_ok sid srv :
  (forall p, current_session srv = Some p -> p <> "") ->
  pointer_ok srv -> pointer_ok (delete_session (from_url false) sid srv).2.
Proof.
  intros Hp Hok. rewrite delete_session_bytes by assumption. cbn.
  intros q Hq. cbn in *. case_bool_decide as Hd; [discriminate |].
  rewrite lookup_delete_ne by congruence. by apply Hok.
Qed.

(** The client of the program: the record is deleted, then [.decode] on
    the [str] pointer raises, and the pointer stays. *)
Lemma delete_session_str sid srv (p : string) :
  current_session srv = Some p -> p <> "" ->
  delete_session redis_client sid srv
  = (Raise AttributeError,
     mkserver (base.delete sid (chat_sessions srv)) (Some p)).
Proof.
  intros Hp Hne. run. rewrite Hp. cbn. rewrite nonempty_eqb by assumption.
  reflexivity.
Qed.

(** C7, where the code departs from it. [delete_session] removes the
    record, but whenever a pointer is present it then raises
    [AttributeError] at [.decode] and never reaches the line that clears
    the pointer: deleting the session the pointer names leaves a pointer
    to a session that is gone. *)
Theorem delete_session_leaves_pointer sid srv :
  current_session srv = Some sid -> sid <> "" ->
  let r := delete_session redis_client sid srv in
  r.1 = Raise AttributeError /\
  chat_sessions r.2 !! sid = None /\
  current_session r.2 = Some sid /\
  ~ pointer_ok r.2.
Proof.
  intros Hp Hne r. subst r. rewrite (delete_session_str sid srv sid Hp Hne).
  cbn. rewrite lookup_delete_eq. repeat split.
  intros Hok. destruct (Hok sid eq_refl) as [s Hs]. cbn in Hs.
  rewrite lookup_delete_eq in Hs. discriminate.
Qed.

Lemma delete_session_leaves_pointer_witness :
  ~ pointer_ok
      (delete_session redis_client "5f0c"
         (mkserver {[ "5f0c" := mksession "5f0c" "New Session (Today)"
                                  [initial_message] "2024-01-03 09:05"
                                  "Today" ]}
                   (Some "5f0c"))).2.
Proof.
  apply (delete_session_leaves_pointer "5f0c"
           (mkserver {[ "5f0c" := mksession "5f0c" "New Session (Today)"
                                    [initial_message] "2024-01-03 09:05"
                                    "Today" ]}
                     (Some "5f0c"))).
  - reflexivity.
  - discriminate.
Defined.

(** ** Listing the sessions *)

(** C5, where the code departs from it. With the client of the program
    the fields of the hash come back as [str], and the first
    [session_id.decode] of the loop raises [AttributeError]: on a store
    that holds any session, [get_all_sessions] returns no list at all. *)
Theorem get_all_sessions_raises srv :
  chat_sessions srv <> ∅ ->
  get_all_sessions redis_client srv = (Raise AttributeError, srv).
Proof.
  intros Hne. run.
  destruct (map_to_list (chat_sessions srv)) as [| [k s] l] eqn:El.
  - apply map_to_list_empty_iff in El. contradiction.
  - reflexivity.
Qed.

Lemma get_all_sessions_raises_witness :
  get_all_sessions redis_client
    (mkserver {[ "5f0c" := mksession "5f0c" "New Session (Today)"
                             [initial_message] "2024-01-03 09:05" "Today" ]}
              (Some "5f0c"))
  = (Raise AttributeError,
     mkserver {[ "5f0c" := mksession "5f0c" "New Session (Today)"
                             [initial_message] "2024-01-03 09:05" "Today" ]}
              (Some "5f0c")).
Proof.
  apply (get_all_sessions_raises
           (mkserver {[ "5f0c" := mksession "5f0c" "New Session (Today)"
                                    [initial_message] "2024-01-03 09:05"
                                    "Today" ]}
                     (Some "5f0c"))).
  intros H. apply (f_equal (fun m => m !! "5f0c")) in H.
  cbn in H. rewrite lookup_singleton_eq, lookup_empty in H. discriminate.
Defined.

(** ** The order of the storage format is the order of time *)

Section StorageOrder.

Lemma ascii_compare_digit (a b : Z) :
  0 <= a < 10 -> 0 <= b < 10 ->
  Ascii.compare (digit a) (digit b) = (a ?= b).
Proof.
  intros Ha Hb. enum_from a 0 10%nat; enum_from b 0 10%nat; reflexivity.
Qed.

Lemma string_compare_cons (c1 c2 : ascii) (s1 s2 : string) :
  String.compare (String c1 s1) (String c2 s2)
  = lex (Ascii.compare c1 c2) (String.compare s1 s2).
Proof. cbn. destruct (Ascii.compare c1 c2); reflexivity. Qed.

Lemma string_compare_same_head (c : ascii) (s1 s2 : string) :
  String.compare (String c s1) (String c s2) = String.compare s1 s2.
Proof.
  rewrite string_compare_cons. unfold Ascii.compare.
  rewrite N.compare_refl. reflexivity.
Qed.

Lemma div_mod_10_bounds (n : Z) :
  0 <= n < 100 -> 0 <= n / 10 < 10 /\ 0 <= n mod 10 < 10.
Proof. intros H. Z.to_euclidean_division_equations. lia. Qed.

Lemma two_digits_compare (n m : Z) (r1 r2 : string) :
  0 <= n < 100 -> 0 <= m < 100 ->
  String.compare (two_digits n r1) (two_digits m r2)
  = lex (n ?= m) (String.compare r1 r2).
Proof.
  intros Hn Hm. unfold two_digits.
  destruct (div_mod_10_bounds n Hn), (div_mod_10_bounds m Hm).
  rewrite !string_compare_cons, !ascii_compare_digit by assumption.
  destruct (Z.compare_spec (n / 10) (m / 10));
    destruct (Z.compare_spec (n mod 10) (m mod 10));
    destruct (Z.compare_spec n m); cbn; try reflexivity;
    exfalso; Z.to_euclidean_division_equations; lia.
Qed.

Lemma four_digits_two_digits (n : Z) (r : string) :
  0 <= n < 10000 ->
  four_digits n r = two_digits (n / 100) (two_digits (n mod 100) r).
Proof.
  intros Hn. unfold four_digits, two_digits.
  replace (n / 1000) with (n / 100 / 10)
    by (Z.to_euclidean_division_equations; lia).
  replace (n / 10 mod 10) with (n mod 100 / 10)
    by (Z.to_euclidean_division_equations; lia).
  replace (n mod 100 mod 10) with (n mod 10)
    by (Z.to_euclidean_division_equations; lia).
  reflexivity.
Qed.

Lemma four_digits_compare (n m : Z) (r1 r2 : string) :
  0 <= n < 10000 -> 0 <= m < 10000 ->
  String.compare (four_digits n r1) (four_digits m r2)
  = lex (n ?= m) (String.compare r1 r2).
Proof.
  intros Hn Hm. rewrite !four_digits_two_digits by assumption.
  rewrite !two_digits_compare
    by (Z.to_euclidean_division_equations; lia).
  destruct (Z.compare_spec (n / 100) (m / 100));
    destruct (Z.compare_spec (n mod 100) (m mod 100));
    destruct (Z.compare_spec n m); cbn; try reflexivity;
    exfalso; Z.to_euclidean_division_equations; lia.
Qed.

(** Comparing two stored timestamps compares year, month, day, hour and
    minute in this order. *)
Lemma strftime_compare_fields (a b : datetime) :
  valid_datetime a = true -> valid_datetime b = true ->
  String.compare (strftime a) (strftime b)
  = lex (year (date_of a) ?= year (date_of b))
      (lex (month (date_of a) ?= month (date_of b))
         (lex (day (date_of a) ?= day (date_of b))
            (lex (hour a ?= hour b) (minute a ?= minute b)))).
Proof.
  intros Ha Hb.
  pose proof (valid_datetime_bounds a Ha) as (? & ? & ? & ? & ?).
  pose proof (valid_datetime_bounds b Hb) as (? & ? & ? & ? & ?).
  unfold strftime.
  rewrite four_digits_compare, string_compare_same_head by lia.
  rewrite two_digits_compare, string_compare_same_head by lia.
  rewrite two_digits_compare, string_compare_same_head by lia.
  rewrite two_digits_compare, string_compare_same_head by lia.
  rewrite two_digits_compare by lia.
  cbn. destruct (minute a ?= minute b); reflexivity.
Qed.

(** The storage format orders timestamps as the time line does. *)
Lemma strftime_compare (a b : datetime) :
  valid_datetime a = true -> valid_datetime b = true ->
  String.compare (strftime a) (strftime b)
  = (minutes_of a ?= minutes_of b).
Proof.
  intros Ha Hb. rewrite strftime_compare_fields by assumption.
  pose proof (valid_datetime_bounds a Ha) as (_ & _ & _ & ? & ?).
  pose proof (valid_datetime_bounds b Hb) as (_ & _ & _ & ? & ?).
  pose proof (valid_datetime_date a Ha) as Hda.
  pose proof (valid_datetime_date b Hb) as Hdb.
  unfold minutes_of. symmetry.
  destruct (Z.compare_spec (year (date_of a)) (year (date_of b))) as [Hy | Hy | Hy];
    cbn.
  2:{ pose proof (toordinal_lt_year _ _ Hda Hdb Hy).
      apply Z.compare_lt_iff. lia. }
  2:{ pose proof (toordinal_lt_year _ _ Hdb Hda Hy).
      apply Z.compare_gt_iff. lia. }
  destruct (Z.compare_spec (month (date_of a)) (month (date_of b))) as [Hm | Hm | Hm];
    cbn.
  2:{ pose proof (toordinal_lt_month _ _ Hda Hdb Hy Hm).
      apply Z.compare_lt_iff. lia. }
  2:{ pose proof (toordinal_lt_month _ _ Hdb Hda (eq_sym Hy) Hm).
      apply Z.compare_gt_iff. lia. }
  unfold toordinal. rewrite Hy, Hm.
  destruct (Z.compare_spec (day (date_of a)) (day (date_of b))); cbn;
    [| apply Z.compare_lt_iff; lia | apply Z.compare_gt_iff; lia].
  destruct (Z.compare_spec (hour a) (hour b)); cbn;
    [| apply Z.compare_lt_iff; lia | apply Z.compare_gt_iff; lia].
  destruct (Z.compare_spec (minute a) (minute b));
    [apply Z.compare_eq_iff; lia | apply Z.compare_lt_iff; lia
     | apply Z.compare_gt_iff; lia].
Qed.

Lemma strftime_ltb (a b : datetime) :
  valid_datetime a = true -> valid_datetime b = true ->
  String.ltb (strftime a) (strftime b) = (minutes_of a <? minutes_of b).
Proof.
  intros Ha Hb. unfold String.ltb, Z.ltb.
  rewrite strftime_compare by assumption. reflexivity.
Qed.

End StorageOrder.

(** ** Listing with a client that hands back [bytes] *)

Section Listing.

Lemma string_ltb_asym (x y : string) :
  String.ltb x y = true -> String.ltb y x = false.
Proof.
  unfold String.ltb. rewrite (String.compare_antisym x y).
  destruct (String.compare y x); cbn; congruence.
Qed.

Lemma insert_desc_perm (x : summary) (l : list summary) :
  insert_desc x l ≡ₚ x :: l.
Proof.
  induction l as [| y l IH]; cbn; [reflexivity |].
  destruct (String.ltb (sum_created_at x) (sum_created_at y));
    [| reflexivity].
  rewrite IH. apply Permutation_swap.
Qed.

Lemma sorted_desc_perm (l : list summary) : sorted_desc l ≡ₚ l.
Proof.
  induction l as [| x l IH]; cbn; [reflexivity |].
  rewrite insert_desc_perm. by rewrite IH.
Qed.

Lemma insert_desc_sorted (x : summary) (l : list summary) :
  Sorted not_older l -> Sorted not_older (insert_desc x l).
Proof.
  induction 1 as [| y l Hs IH Hhd]; cbn; [repeat constructor |].
  destruct (String.ltb (sum_created_at x) (sum_created_at y)) eqn:E.
  - constructor; [exact IH |].
    destruct Hhd as [| z l Hyz]; cbn.
    + constructor. by apply string_ltb_asym.
    + destruct (String.ltb (sum_created_at x) (sum_created_at z));
        constructor; [exact Hyz | by apply string_ltb_asym].
  - constructor; [by constructor | constructor; exact E].
Qed.

Lemma sorted_desc_sorted (l : list summary) :
  Sorted not_older (sorted_desc l).
Proof.
  induction l as [| x l IH]; cbn; [constructor |].
  by apply insert_desc_sorted.
Qed.

Lemma collect_sessions_bytes (l : list (string * session)) :
  collect_sessions (List.map (fun kv => (PyBytes kv.1, kv.2)) l)
  = Ok (List.map summary_of l).
Proof.
  induction l as [| [k s] l IH]; cbn; [reflexivity |].
  rewrite IH. reflexivity.
Qed.

(** Had the client handed back [bytes], the list would be one entry per
    stored session, newest first. *)
Lemma get_all_sessions_bytes srv :
  exists l,
    get_all_sessions (from_url false) srv = (Ok l, srv) /\
    Sorted not_older l /\
    l ≡ₚ List.map summary_of (map_to_list (chat_sessions srv)).
Proof.
  exists (sorted_desc (List.map summary_of (map_to_list (chat_sessions srv)))).
  split; [| split].
  - run. rewrite collect_sessions_bytes. reflexivity.
  - apply sorted_desc_sorted.
  - apply sorted_desc_perm.
Qed.

(** Of two sessions created on 2024-01-01 at 10:00 and on 2024-01-02 at
    09:00, the second comes first. *)
Example newest_first :
  sorted_desc [mksummary "a" "t1" "2024-01-01 10:00" 1;
               mksummary "b" "t2" "2024-01-02 09:00" 1]
  = [mksummary "b" "t2" "2024-01-02 09:00" 1;
     mksummary "a" "t1" "2024-01-01 10:00" 1].
Proof. reflexivity. Qed.

End Listing.

(** * Further properties of the session functions *)

(** ** Appending and reading *)

(** X1. On a stored session, the messages read right after an append are
    the messages before it followed by the appended one. *)
Theorem add_message_then_get_messages rc sid (m : message) srv s :
  chat_sessions srv !! sid = Some s ->
  let srv' := (add_message_to_session rc sid m srv).2 in
  get_session_messages rc sid srv' = (Ok (messages s ++ [m])%list, srv').
Proof.
  intros Hs srv'. subst srv'. rewrite add_message_to_session_run, Hs.
  run. rewrite lookup_insert_eq. reflexivity.
Qed.

Lemma add_message_then_get_messages_witness :
  let srv := mkserver {[ "5f0c" := mksession "5f0c" "New Session (Today)"
                                     [initial_message] "2024-01-03 09:05"
                                     "Today" ]} (Some "5f0c") in
  let srv' := (add_message_to_session redis_client "5f0c"
                 (mkmessage "user" "hi") srv).2 in
  get_session_messages redis_client "5f0c" srv'
  = (Ok [initial_message; mkmessage "user" "hi"], srv').
Proof.
  apply (add_message_then_get_messages redis_client "5f0c"
           (mkmessage "user" "hi") _
           (mksession "5f0c" "New Session (Today)" [initial_message]
                      "2024-01-03 09:05" "Today")).
  reflexivity.
Defined.

(** ** What appends and rollbacks leave alone *)

Section Frame.

Variable rc : client.
Variable sid : string.

Lemma kept_refl srv : kept sid srv srv.
Proof. repeat split; eauto. Qed.

Lemma kept_trans srv1 srv2 srv3 :
  kept sid srv1 srv2 -> kept sid srv2 srv3 -> kept sid srv1 srv3.
Proof.
  intros (Hp & Ho & Hs & Hn) (Hp' & Ho' & Hs' & Hn').
  split; [congruence |]. split; [| split].
  - intros other Hne. rewrite Ho', Ho by assumption. reflexivity.
  - intros s Hl. destruct (Hs s Hl) as (s2 & Hl2 & ? & ? & ?).
    destruct (Hs' s2 Hl2) as (s3 & Hl3 & ? & ? & ?).
    exists s3. repeat split; congruence.
  - intros Hl. specialize (Hn Hl). subst srv2. auto.
Qed.

Lemma kept_write srv (s s' : session) :
  chat_sessions srv !! sid = Some s ->
  id s' = id s -> created_at s' = created_at s ->
  display_time s' = display_time s ->
  kept sid srv (mkserver (<[sid := s']> (chat_sessions srv))
                     (current_session srv)).
Proof.
  intros Hs Hi Hc Hd. split; [reflexivity |]. split; [| split]; cbn.
  - intros other Hne. by rewrite lookup_insert_ne.
  - intros s0 Hs0. rewrite lookup_insert_eq.
    exists s'. repeat split; congruence.
  - congruence.
Qed.

Lemma run_op_kept (o : op) srv : kept sid srv (run_op rc sid o srv).2.
Proof.
  destruct o as [m |]; cbn [run_op].
  - rewrite add_message_to_session_run.
    destruct (chat_sessions srv !! sid) as [s |] eqn:Es;
      [| apply kept_refl].
    by apply kept_write with s.
  - rewrite handle_failed_send_run.
    destruct (chat_sessions srv !! sid) as [s |] eqn:Es;
      [| apply kept_refl].
    destruct (last (messages s)) as [m |]; [| apply kept_refl].
    destruct (String.eqb (role m) "user"); [| apply kept_refl].
    by apply kept_write with s.
Qed.

Lemma run_ops_kept (ops : list op) srv : kept sid srv (run_ops rc sid ops srv).
Proof.
  revert srv. induction ops as [| o ops IH]; intros srv; cbn;
    [apply kept_refl |].
  eapply kept_trans; [apply run_op_kept | apply IH].
Qed.

End Frame.

(** X2. Appends and rollbacks on one session id, in any number and order,
    leave the pointer and every other session as they were; the session
    stays stored with its [id], [created_at] and [display_time], and when
    it is not stored nothing at all changes. *)
Theorem run_ops_keeps_the_rest rc sid (ops : list op) srv :
  let srv' := run_ops rc sid ops srv in
  current_session srv' = current_session srv /\
  (forall other, other <> sid ->
     chat_sessions srv' !! other = chat_sessions srv !! other) /\
  (forall s, chat_sessions srv !! sid = Some s ->
     exists s', chat_sessions srv' !! sid = Some s' /\ id s' = id s /\
                created_at s' = created_at s /\
                display_time s' = display_time s) /\
  (chat_sessions srv !! sid = None -> srv' = srv).
Proof. exact (run_ops_kept rc sid ops srv). Qed.

(** ** The greeting stays first *)

Lemma run_op_keeps_head rc sid (o : op) srv s (first : message)
    (rest : list message) :
  chat_sessions srv !! sid = Some s ->
  messages s = first :: rest -> role first <> "user" ->
  exists s' rest',
    chat_sessions (run_op rc sid o srv).2 !! sid = Some s' /\
    messages s' = first :: rest'.
Proof.
  intros Hs Hm Hr. destruct o as [m |]; cbn [run_op].
  - rewrite add_message_to_session_run, Hs. cbn. rewrite lookup_insert_eq.
    eexists _, _. split; [reflexivity |]. cbn. rewrite Hm. reflexivity.
  - rewrite handle_failed_send_run, Hs.
    destruct (last (messages s)) as [m |] eqn:El; [| eauto].
    destruct (String.eqb (role m) "user") eqn:E; [| eauto].
    cbn. rewrite lookup_insert_eq.
    destruct rest as [| r rest].
    + rewrite Hm in El. cbn in El. injection El as <-.
      apply String.eqb_eq in E. contradiction.
    + eexists _, (removelast (r :: rest)).
      split; [reflexivity |]. cbn [messages]. rewrite Hm. reflexivity.
Qed.

Lemma run_ops_keeps_head rc sid (ops : list op) srv s (first : message)
    (rest : list message) :
  chat_sessions srv !! sid = Some s ->
  messages s = first :: rest -> role first <> "user" ->
  exists s' rest',
    chat_sessions (run_ops rc sid ops srv) !! sid = Some s' /\
    messages s' = first :: rest'.
Proof.
  revert srv s rest. induction ops as [| o ops IH]; intros srv s rest Hs Hm Hr;
    cbn; [eauto |].
  destruct (run_op_keeps_head rc sid o srv s first rest Hs Hm Hr)
    as (s1 & rest1 & Hs1 & Hm1).
  by apply IH with s1 rest1.
Qed.

(** X3. From its creation on, through appends and rollbacks in any number
    and order, a session is never left without messages and its first
    message is the greeting: a rollback stops at it. *)
Theorem greeting_stays_first rc uuid4 now now' srv sid srv0 (ops : list op) :
  create_new_session rc uuid4 now now' srv = (Ok sid, srv0) ->
  exists s (rest : list message),
    chat_sessions (run_ops rc sid ops srv0) !! sid = Some s /\
    messages s = initial_message :: rest.
Proof.
  intros Hc. apply create_new_session_inv in Hc as (-> & label & ->).
  eapply run_ops_keeps_head with (rest := []).
  - unfold created; cbn. apply lookup_insert_eq.
  - reflexivity.
  - discriminate.
Qed.

Lemma greeting_stays_first_witness :
  exists s (rest : list message),
    chat_sessions
      (run_ops redis_client "5f0c"
         [Append (mkmessage "user" "hi"); FailedSend; FailedSend]
         (create_new_session redis_client "5f0c"
            (mkdatetime (mkdate 2024 1 3) 9 5)
            (mkdatetime (mkdate 2024 1 3) 9 5) (mkserver ∅ None)).2)
      !! "5f0c" = Some s /\
    messages s = initial_message :: rest.
Proof.
  apply (greeting_stays_first redis_client "5f0c"
           (mkdatetime (mkdate 2024 1 3) 9 5)
           (mkdatetime (mkdate 2024 1 3) 9 5) (mkserver ∅ None) "5f0c").
  vm_compute. reflexivity.
Defined.

(** ** A chat turn *)

Lemma appended_user (s : session) (prompt : string) :
  appended s (mkmessage "user" prompt)
  = mksession (id s)
      (if (length (messages s) =? 1)%nat
       then substring 0 30 prompt +:+ "..." else title s)
      (messages s ++ [mkmessage "user" prompt])
      (created_at s) (display_time s).
Proof.
  unfold appended. f_equal. rewrite length_app. cbn.
  destruct (length (messages s)) as [| [| n]]; cbn; try reflexivity.
  replace (n + 1)%nat with (S n) by lia. reflexivity.
Qed.

Lemma submit_message_run rc sid srv s (prompt : string)
    (response : result string) :
  chat_sessions srv !! sid = Some s -> prompt <> "" ->
  submit_message rc sid (Some prompt) response srv
  = (Ok tt,
     mkserver
       (<[sid := mksession (id s)
                   (if (length (messages s) =? 1)%nat
                    then substring 0 30 prompt +:+ "..." else title s)
                   (messages s ++ exchange (Some prompt, response))
                   (created_at s) (display_time s)]>
          (chat_sessions srv))
       (current_session srv)).
Proof.
  intros Hs Hne. unfold submit_message, exchange.
  rewrite nonempty_eqb by assumption.
  unfold mbind, M_bind. rewrite add_message_to_session_run, Hs.
  rewrite appended_user.
  destruct response as [text | e].
  - rewrite add_message_to_session_run.
    cbn [chat_sessions current_session]. rewrite lookup_insert_eq.
    unfold appended. cbn. rewrite insert_insert_eq, <- app_assoc.
    reflexivity.
  - rewrite handle_failed_send_run.
    cbn [chat_sessions current_session]. rewrite lookup_insert_eq.
    cbn [messages]. rewrite last_snoc. cbn.
    rewrite removelast_last, insert_insert_eq, app_nil_r.
    reflexivity.
Qed.

(** X4. A chat turn with a prompt on a stored session writes the record
    back with the prompt and the answer appended when the send returned
    and with the messages as they were when it raised; either way the
    title becomes the first 30 characters of the prompt and "..." when the
    session held exactly one message, so a prompt that was never answered
    still names the session. Nothing else changes. *)
Theorem submit_message_record rc sid srv s (prompt : string)
    (response : result string) :
  chat_sessions srv !! sid = Some s -> prompt <> "" ->
  submit_message rc sid (Some prompt) response srv
  = (Ok tt,
     mkserver
       (<[sid := mksession (id s)
                   (if (length (messages s) =? 1)%nat
                    then substring 0 30 prompt +:+ "..." else title s)
                   (messages s ++
                      match response with
                      | Ok response_text =>
                          [mkmessage "user" prompt;
                           mkmessage "assistant" response_text]
                      | Raise _ => []
                      end)
                   (created_at s) (display_time s)]>
          (chat_sessions srv))
       (current_session srv)).
Proof.
  intros Hs Hne. rewrite (submit_message_run rc sid srv s) by assumption.
  unfold exchange. rewrite nonempty_eqb by assumption. reflexivity.
Qed.

Lemma submit_message_record_witness :
  title_of "5f0c"
    (submit_message redis_client "5f0c" (Some "what is a list?")
       (Raise ValueError)
       (mkserver {[ "5f0c" := mksession "5f0c" "New Session (Today)"
                                [initial_message] "2024-01-03 09:05"
                                "Today" ]} (Some "5f0c"))).2
  = Some "what is a list?...".
Proof.
  rewrite (submit_message_record redis_client "5f0c"
             (mkserver {[ "5f0c" := mksession "5f0c" "New Session (Today)"
                                      [initial_message] "2024-01-03 09:05"
                                      "Today" ]} (Some "5f0c"))
             (mksession "5f0c" "New Session (Today)" [initial_message]
                        "2024-01-03 09:05" "Today")
             "what is a list?" (Raise ValueError)).
  - reflexivity.
  - reflexivity.
  - discriminate.
Defined.

Lemma submit_message_skip rc sid (user_prompt : option string)
    (response : result string) srv :
  chat_sessions srv !! sid = None \/ user_prompt = None
    \/ user_prompt = Some "" ->
  submit_message rc sid user_prompt response srv = (Ok tt, srv).
Proof.
  intros [Hs | [-> | ->]]; [| reflexivity | reflexivity].
  destruct user_prompt as [prompt |]; [| reflexivity].
  unfold submit_message. destruct (String.eqb prompt ""); [reflexivity |].
  unfold mbind, M_bind. rewrite add_message_to_session_run, Hs.
  destruct response.
  - rewrite add_message_to_session_run, Hs. reflexivity.
  - rewrite handle_failed_send_run, Hs. reflexivity.
Qed.

(** X5. A chat turn on a session id that the store does not hold, for
    one deleted in the meantime, drops the prompt and the answer without
    raising and writes nothing; so does a turn without a prompt. *)
Theorem submit_message_dropped rc sid (user_prompt : option string)
    (response : result string) srv :
  chat_sessions srv !! sid = None \/ user_prompt = None
    \/ user_prompt = Some "" ->
  submit_message rc sid user_prompt response srv = (Ok tt, srv).
Proof. apply submit_message_skip. Qed.

Lemma submit_message_dropped_witness :
  submit_message redis_client "gone" (Some "hi") (Ok "hello")
    (mkserver ∅ (Some "gone"))
  = (Ok tt, mkserver ∅ (Some "gone")).
Proof.
  apply (submit_message_dropped redis_client "gone" (Some "hi") (Ok "hello")
           (mkserver ∅ (Some "gone"))).
  left. reflexivity.
Defined.

(** ** Sequences of chat turns *)

Section Turns.

Variable rc : client.
Variable sid : string.

(** The record after one turn on a stored session. *)
Lemma submit_message_step (t : turn) srv s :
  chat_sessions srv !! sid = Some s ->
  exists s',
    chat_sessions (submit_message rc sid t.1 t.2 srv).2 !! sid = Some s' /\
    messages s' = (messages s ++ exchange t)%list /\
    title s' = match t.1 with
               | Some prompt =>
                   if negb (String.eqb prompt "")
                      && (length (messages s) =? 1)%nat
                   then substring 0 30 prompt +:+ "..." else title s
               | None => title s
               end.
Proof.
  intros Hs. destruct t as [[prompt |] response]; cbn [fst snd].
  - destruct (String.eqb prompt "") eqn:E.
    + apply String.eqb_eq in E as ->.
      rewrite submit_message_skip by auto.
      exists s. destruct response; cbn; by rewrite app_nil_r.
    + apply String.eqb_neq in E.
      rewrite (submit_message_run rc sid srv s) by assumption.
      cbn. rewrite lookup_insert_eq. eexists. split; [reflexivity |].
      cbn. split; reflexivity.
  - rewrite submit_message_skip by auto. exists s. cbn.
    by rewrite app_nil_r.
Qed.

Lemma run_turns_messages (turns : list turn) srv s :
  chat_sessions srv !! sid = Some s ->
  exists s',
    chat_sessions (run_turns rc sid turns srv) !! sid = Some s' /\
    messages s' = (messages s ++ transcript turns)%list.
Proof.
  revert srv s. induction turns as [| t turns IH]; intros srv s Hs; cbn.
  - exists s. by rewrite app_nil_r.
  - destruct (submit_message_step t srv s Hs) as (s1 & Hs1 & Hm1 & _).
    destruct (IH _ s1 Hs1) as (s2 & Hs2 & Hm2).
    exists s2. split; [exact Hs2 |].
    rewrite Hm2, Hm1, <- app_assoc. reflexivity.
Qed.

(** From two messages on, turns leave the title alone. *)
Lemma run_turns_title_settled (turns : list turn) srv s :
  chat_sessions srv !! sid = Some s -> (2 <= length (messages s))%nat ->
  title_of sid (run_turns rc sid turns srv) = Some (title s).
Proof.
  revert srv s. induction turns as [| t turns IH]; intros srv s Hs Hlen; cbn.
  - unfold title_of. by rewrite Hs.
  - destruct (submit_message_step t srv s Hs) as (s1 & Hs1 & Hm1 & Ht1).
    rewrite (IH _ s1 Hs1) by (rewrite Hm1, length_app; lia).
    f_equal. rewrite Ht1. destruct t.1 as [prompt |]; [| reflexivity].
    replace (length (messages s) =? 1)%nat with false
      by (symmetry; apply Nat.eqb_neq; lia).
    by rewrite andb_false_r.
Qed.

Lemma run_turns_title (turns : list turn) srv s :
  chat_sessions srv !! sid = Some s -> length (messages s) = 1%nat ->
  title_of sid (run_turns rc sid turns srv)
  = Some (title_after turns (title s)).
Proof.
  revert srv s. induction turns as [| t turns IH]; intros srv s Hs Hlen.
  - cbn. unfold title_of. by rewrite Hs.
  - cbn [run_turns].
    destruct (submit_message_step t srv s Hs) as (s1 & Hs1 & Hm1 & Ht1).
    rewrite Hlen in Ht1.
    destruct t as [[prompt |] response]; cbn [fst snd title_after] in *;
      unfold exchange in Hm1.
    + destruct (String.eqb prompt "") eqn:E; destruct response as [text | e];
        cbn in Ht1, Hm1; rewrite ?app_nil_r in Hm1.
      * rewrite (IH _ s1 Hs1) by congruence. by rewrite Ht1.
      * rewrite (IH _ s1 Hs1) by congruence. by rewrite Ht1.
      * rewrite (run_turns_title_settled turns _ s1 Hs1)
          by (rewrite Hm1, length_app; cbn; lia).
        by rewrite Ht1.
      * rewrite (IH _ s1 Hs1) by congruence. by rewrite Ht1.
    + cbn in Hm1. rewrite app_nil_r in Hm1.
      rewrite (IH _ s1 Hs1) by congruence. by rewrite Ht1.
Qed.

End Turns.

(** X6. After any sequence of chat turns on a stored session, its
    messages are those it had followed by the prompt and the answer of
    each answered turn, in order: a turn whose send raised, or that had
    no prompt, leaves no message behind. *)
Theorem run_turns_transcript rc sid (turns : list turn) srv s :
  chat_sessions srv !! sid = Some s ->
  let srv' := run_turns rc sid turns srv in
  get_session_messages rc sid srv'
  = (Ok (messages s ++ transcript turns)%list, srv').
Proof.
  intros Hs srv'. subst srv'.
  destruct (run_turns_messages rc sid turns srv s Hs) as (s' & Hs' & Hm).
  run. rewrite Hs', Hm. reflexivity.
Qed.

Lemma run_turns_transcript_witness :
  let srv := mkserver {[ "5f0c" := mksession "5f0c" "New Session (Today)"
                                     [initial_message] "2024-01-03 09:05"
                                     "Today" ]} (Some "5f0c") in
  let srv' := run_turns redis_client "5f0c"
                [(Some "a", Raise ValueError); (None, Ok "x");
                 (Some "b", Ok "c")] srv in
  get_session_messages redis_client "5f0c" srv'
  = (Ok [initial_message; mkmessage "user" "b"; mkmessage "assistant" "c"],
     srv').
Proof.
  apply (run_turns_transcript redis_client "5f0c"
           [(Some "a", Raise ValueError); (None, Ok "x"); (Some "b", Ok "c")]
           _ (mksession "5f0c" "New Session (Today)" [initial_message]
                        "2024-01-03 09:05" "Today")).
  reflexivity.
Defined.

(** X7. After a session is created and any sequence of chat turns is run
    on it, its title is read off the first 30 characters of one prompt:
    that of the first answered turn, or, as long as no turn was answered,
    that of the latest turn whose send raised; with no prompt at all it is
    the title given at creation. *)
Theorem run_turns_title_from_creation
    rc uuid4 now now' srv sid srv0 (turns : list turn) :
  create_new_session rc uuid4 now now' srv = (Ok sid, srv0) ->
  exists created_title,
    title_of sid srv0 = Some created_title /\
    title_of sid (run_turns rc sid turns srv0)
    = Some (title_after turns created_title).
Proof.
  intros Hc. apply create_new_session_inv in Hc as (-> & label & ->).
  eexists. split.
  - unfold title_of, created. cbn. rewrite lookup_insert_eq. reflexivity.
  - erewrite run_turns_title.
    + reflexivity.
    + unfold created. cbn. apply lookup_insert_eq.
    + reflexivity.
Qed.

Lemma run_turns_title_from_creation_witness :
  exists created_title,
    title_of "5f0c"
      (create_new_session redis_client "5f0c"
         (mkdatetime (mkdate 2024 1 3) 9 5)
         (mkdatetime (mkdate 2024 1 3) 9 5) (mkserver ∅ None)).2
    = Some created_title /\
    title_of "5f0c"
      (run_turns redis_client "5f0c"
         [(Some "a", Raise ValueError); (Some "b", Ok "c");
          (Some "d", Ok "e")]
         (create_new_session redis_client "5f0c"
            (mkdatetime (mkdate 2024 1 3) 9 5)
            (mkdatetime (mkdate 2024 1 3) 9 5) (mkserver ∅ None)).2)
    = Some (title_after [(Some "a", Raise ValueError); (Some "b", Ok "c");
                         (Some "d", Ok "e")] created_title).
Proof.
  apply (run_turns_title_from_creation redis_client "5f0c"
           (mkdatetime (mkdate 2024 1 3) 9 5)
           (mkdatetime (mkdate 2024 1 3) 9 5) (mkserver ∅ None) "5f0c").
  vm_compute. reflexivity.
Defined.

Example title_after_example :
  title_after [(Some "a", Raise ValueError); (Some "b", Ok "c");
               (Some "d", Ok "e")] "New Session (Today)" = "b...".
Proof. reflexivity. Qed.

(** ** More on creating a session *)



(** X9. Whenever [create_new_session] returns, the pointer names the new
    session, which is stored with one message whatever was stored under
    its id before, so the pointer names a stored session even if it did
    not before; every other session is as it was. *)
Theorem create_new_session_installs rc uuid4 now now' srv sid srv' :
  create_new_session rc uuid4 now now' srv = (Ok sid, srv') ->
  current_session srv' = Some sid /\
  count_of sid srv' = Some 1%nat /\
  pointer_ok srv' /\
  (forall other, other <> sid ->
     chat_sessions srv' !! other = chat_sessions srv !! other).
Proof.
  intros Hc. apply create_new_session_inv in Hc as (-> & label & ->).
  unfold created, count_of, pointer_ok. cbn.
  split; [reflexivity |]. split; [by rewrite lookup_insert_eq |]. split.
  - intros q [= <-]. rewrite lookup_insert_eq. eauto.
  - intros other Hne. by rewrite lookup_insert_ne.
Qed.

Lemma create_new_session_installs_witness :
  pointer_ok
    (create_new_session redis_client "5f0c"
       (mkdatetime (mkdate 2024 1 3) 9 5) (mkdatetime (mkdate 2024 1 3) 9 5)
       (mkserver ∅ (Some "gone"))).2.
Proof.
  refine (proj1 (proj2 (proj2
    (create_new_session_installs redis_client "5f0c"
       (mkdatetime (mkdate 2024 1 3) 9 5) (mkdatetime (mkdate 2024 1 3) 9 5)
       (mkserver ∅ (Some "gone")) "5f0c" _ _)))).
  vm_compute. reflexivity.
Defined.

(** ** When the calls of [main] return *)

Lemma get_current_session_empty rc uuid4 now now' srv :
  current_session srv = None \/ current_session srv = Some "" ->
  get_current_session rc uuid4 now now' srv
  = create_new_session rc uuid4 now now' srv.
Proof.
  intros [H | H]; run; rewrite H; [reflexivity |].
  destruct (decode_responses rc); reflexivity.
Qed.



Lemma get_all_sessions_str srv :
  get_all_sessions redis_client srv
  = (if bool_decide (chat_sessions srv = ∅) then Ok [] else Raise AttributeError,
     srv).
Proof.
  run. case_bool_decide as He.
  - rewrite He, map_to_list_empty. reflexivity.
  - destruct (map_to_list (chat_sessions srv)) as [| [k s] l] eqn:El;
      [| reflexivity].
    apply map_to_list_empty_iff in El. contradiction.
Qed.

(** X11. With the client of the program, [get_all_sessions] returns only
    on a store without sessions, and then the empty list; it never writes
    to the server. *)
Theorem get_all_sessions_returns_iff_empty srv (l : list summary) srv' :
  get_all_sessions redis_client srv = (Ok l, srv')
  <-> (chat_sessions srv = ∅ /\ l = [] /\ srv' = srv).
Proof.
  rewrite get_all_sessions_str. case_bool_decide as He; split.
  - intros [= <- <-]. auto.
  - intros (_ & -> & ->). reflexivity.
  - discriminate.
  - intros (Hc & _). contradiction.
Qed.

(** X12. With the client of the program, the two calls that every run of
    [main] makes first, [get_current_session] on line 202 and, with no
    click on "New Chat" in between, [get_all_sessions] on line 219, never
    both return, whatever the server holds: either the pointer is there
    and the first raises, or the first stores a session and the second
    raises on it. *)
Theorem get_current_then_all_sessions_raises uuid4 now now' srv :
  exists e srv',
    (get_current_session redis_client uuid4 now now' ≫=
       fun _ => get_all_sessions redis_client) srv
    = (Raise e, srv').
Proof.
  unfold mbind at 1. unfold M_bind.
  destruct (get_current_session redis_client uuid4 now now' srv)
    as [[sid | e] srv1] eqn:Hc; [| eauto].
  assert (Hne : chat_sessions srv1 <> ∅).
  { assert (Hcr : create_new_session redis_client uuid4 now now' srv
                  = (Ok sid, srv1)).
    { destruct (current_session srv) as [p |] eqn:Ep.
      - destruct (String.eqb p "") eqn:E.
        + apply String.eqb_eq in E as ->.
          rewrite get_current_session_empty in Hc by auto. exact Hc.
        + apply String.eqb_neq in E.
          rewrite (get_current_session_str _ _ _ _ _ Ep E) in Hc.
          discriminate.
      - rewrite get_current_session_empty in Hc by auto. exact Hc. }
    apply create_new_session_inv in Hcr as (-> & label & ->).
    unfold created. cbn. intros H.
    apply (f_equal (fun m => m !! uuid4)) in H.
    rewrite lookup_insert_eq, lookup_empty in H. discriminate. }
  rewrite get_all_sessions_str, bool_decide_eq_false_2 by assumption.
  eauto.
Qed.

(** ** Deleting, continued *)

(** X13. Whatever the client and whether or not it goes on to raise,
    [delete_session] removes the record of the id and no other. The
    client of the program never changes the pointer in it, and returns
    exactly when there is no pointer or the pointer holds the empty
    string. *)
Theorem delete_session_effect rc sid srv :
  chat_sessions (delete_session rc sid srv).2
  = base.delete sid (chat_sessions srv)
  /\ current_session (delete_session redis_client sid srv).2
     = current_session srv
  /\ ((delete_session redis_client sid srv).1 = Ok tt
      <-> (current_session srv = None \/ current_session srv = Some "")).
Proof.
  split; [| split].
  - run. destruct (current_session srv) as [p |]; [| reflexivity].
    destruct (decode_responses rc); cbn;
      destruct (String.eqb p ""); cbn; try reflexivity.
    destruct (String.eqb p sid); reflexivity.
  - run. destruct (current_session srv) as [p |]; [| reflexivity].
    cbn. destruct (String.eqb p "") eqn:E; cbn; [| reflexivity].
    apply String.eqb_eq in E as ->. reflexivity.
  - run. destruct (current_session srv) as [p |]; cbn; [| split; auto].
    destruct (String.eqb p "") eqn:E; cbn.
    + apply String.eqb_eq in E as ->. split; auto.
    + apply String.eqb_neq in E. split; [discriminate |].
      intros [H | [= H]]; [discriminate | contradiction].
Qed.

(** X14. After [delete_session], whatever the client and whether or not
    it raised, the messages read for the id are the empty list and an
    append to it changes nothing. *)
Theorem deleted_session_is_gone rc sid (m : message) srv :
  let srv' := (delete_session rc sid srv).2 in
  get_session_messages rc sid srv' = (Ok [], srv') /\
  add_message_to_session rc sid m srv' = (Ok tt, srv').
Proof.
  cbv zeta.
  assert (Hgone : chat_sessions (delete_session rc sid srv).2 !! sid = None).
  { run. destruct (current_session srv) as [p |]; cbn.
    - destruct (decode_responses rc); cbn;
        destruct (String.eqb p ""); cbn; try apply lookup_delete_eq;
        destruct (String.eqb p sid); cbn; apply lookup_delete_eq.
    - apply lookup_delete_eq. }
  split.
  - unfold get_session_messages, Redis.hget, mbind, M_bind. cbn.
    rewrite Hgone. reflexivity.
  - rewrite add_message_to_session_run, Hgone. reflexivity.
Qed.

(** ** Listing, continued *)

Section Stable.

Lemma string_ltb_irrefl (k : string) : String.ltb k k = false.
Proof.
  unfold String.ltb. pose proof (String.compare_antisym k k) as H.
  destruct (String.compare k k); [reflexivity | discriminate | reflexivity].
Qed.

Lemma with_key_insert_desc (k : string) (x : summary) (l : list summary) :
  with_key k (insert_desc x l) = with_key k (x :: l).
Proof.
  induction l as [| y l IH]; [reflexivity |]. cbn [insert_desc].
  destruct (String.ltb (sum_created_at x) (sum_created_at y)) eqn:E;
    [| reflexivity].
  unfold with_key in *. cbn [List.filter] in *. rewrite IH.
  destruct (String.eqb (sum_created_at x) k) eqn:Ex;
    destruct (String.eqb (sum_created_at y) k) eqn:Ey; try reflexivity.
  apply String.eqb_eq in Ex, Ey. rewrite Ex, Ey, string_ltb_irrefl in E.
  discriminate.
Qed.

Lemma with_key_sorted_desc (k : string) (l : list summary) :
  with_key k (sorted_desc l) = with_key k l.
Proof.
  induction l as [| x l IH]; [reflexivity |]. cbn [sorted_desc foldr].
  rewrite with_key_insert_desc. unfold with_key in *. cbn [List.filter].
  fold (sorted_desc l). rewrite IH. reflexivity.
Qed.

End Stable.


(** ** The storage format, continued *)



(** ** The length of a title *)

Lemma string_length_app (a b : string) :
  String.length (a +:+ b) = (String.length a + String.length b)%nat.
Proof.
  induction a as [| c a IH]; [reflexivity |].
  change (S (String.length (a +:+ b))
          = S (String.length a + String.length b)). by rewrite IH.
Qed.

(** X17. The title written at the first user message has the length of
    the content, capped at 30, plus the three characters of "...": never
    more than 33 characters, and never fewer than 3. *)
Theorem retitle_length rc sid (m : message) srv s :
  chat_sessions srv !! sid = Some s ->
  length (messages s) = 1%nat ->
  role m = "user" ->
  exists new_title,
    title_of sid (add_message_to_session rc sid m srv).2 = Some new_title /\
    String.length new_title
    = (Nat.min 30 (String.length (content m)) + 3)%nat /\
    (3 <= String.length new_title <= 33)%nat.
Proof.
  intros Hs Hlen Hrole.
  exists (substring 0 30 (content m) +:+ "...").
  destruct (substring_split 30 (content m)) as (rest & _ & Hl).
  split; [| split].
  - rewrite add_message_to_session_run, Hs. unfold title_of. cbn.
    rewrite lookup_insert_eq. cbn. rewrite Hrole.
    rewrite length_app, Hlen. reflexivity.
  - rewrite string_length_app, Hl. reflexivity.
  - rewrite string_length_app, Hl.
    change (String.length "...") with 3%nat. lia.
Qed.

Lemma retitle_length_witness :
  exists new_title,
    title_of "5f0c"
      (add_message_to_session redis_client "5f0c"
         (mkmessage "user" "how do I write a for loop over a dictionary?")
         (mkserver {[ "5f0c" := mksession "5f0c" "New Session (Today)"
                                  [initial_message] "2024-01-03 09:05"
                                  "Today" ]} (Some "5f0c"))).2
    = Some new_title /\
    String.length new_title = 33%nat /\
    (3 <= String.length new_title <= 33)%nat.
Proof.
  apply (retitle_length redis_client "5f0c"
           (mkmessage "user" "how do I write a for loop over a dictionary?")
           (mkserver {[ "5f0c" := mksession "5f0c" "New Session (Today)"
                                    [initial_message] "2024-01-03 09:05"
                                    "Today" ]} (Some "5f0c"))
           (mksession "5f0c" "New Session (Today)" [initial_message]
                      "2024-01-03 09:05" "Today")); reflexivity.
Defined.
